(** * rustdoc implementor pages: the deferred-registration hand-off

    Every file under [implementors/] is one generated script of the form

    <<
    (function() {var implementors = {};
    implementors["crate"] = ["<html>", ...];
    ...
                if (window.register_implementors) {
                    window.register_implementors(implementors);
                } else {
                    window.pending_implementors = implementors;
                }
    })()
    >>

    This development embeds the fragment of JavaScript these scripts use
    (values and their truthiness, a heap of objects and arrays, the
    properties of the global object, calls into functions owned by the
    documentation viewer) and proves what the scripts do to the page.

    Scope of the model: [window] names the global object, as in a browser;
    its properties are plain writable data properties (no getters or
    setters); the local [implementors] of the function wrapper is a bound
    variable of the embedding; a function of the viewer, once called,
    returns or throws.  [Object.prototype] is as the language defines it;
    an object is modelled by its own properties, in the order in which they
    are enumerated, and its prototype is not represented. *)

From Stdlib Require Import Ascii Floats.SpecFloat.
From stdpp Require Import gmap strings list.

(** ** Values *)

(** Objects live in a heap and are named by their position in it; the
    functions of the viewer runtime are named by an identifier of their
    own. *)
Definition loc := nat.
Definition fid := nat.

(** A JavaScript value.  A Number is an IEEE binary64; [spec_float] is the
    Standard Library's specification type of floating-point data, of which
    only the classification (zero, NaN, other) matters below. *)
Inductive value :=
| VUndefined
| VNull
| VBoolean (b : bool)
| VNumber (x : spec_float)
| VBigInt (n : Z)
| VString (s : string)
| VSymbol (id : nat)
| VObject (l : loc)
| VFunction (f : fid)
| VWindow.

#[global] Instance spec_float_eq_dec : EqDecision spec_float.
Proof. solve_decision. Defined.
#[global] Instance value_eq_dec : EqDecision value.
Proof. solve_decision. Defined.

(** ECMAScript's ToBoolean: the test an [if] applies to its condition. *)
Definition ToBoolean (v : value) : bool :=
  match v with
  | VUndefined | VNull => false
  | VBoolean b => b
  | VNumber (S754_zero _) | VNumber S754_nan => false
  | VNumber _ => true
  | VBigInt n => negb (n =? 0)%Z
  | VString s => negb (String.eqb s "")
  | VSymbol _ | VObject _ | VFunction _ | VWindow => true
  end.

(** ECMAScript's IsCallable. *)
Definition IsCallable (v : value) : bool :=
  match v with VFunction _ => true | _ => false end.

(** ** The page: heap, global object, trace *)

(** A plain object keeps its own properties in the order in which they are
    enumerated: the keys that are array indices first, in ascending order,
    then the other keys in the order of their creation.  An array keeps its
    elements. *)
Inductive object :=
| OPlain (props : list (string * value))
| OArray (elems : list value).

Record store := Store {
  heap : list object;
  window : gmap string value;
}.

(** What the running script itself does to the page: its reads and writes
    of properties of [window], and its calls, each with the store the
    callee starts in. *)
Inductive event :=
| EGet (name : string)
| ESet (name : string) (v : value)
| ECall (f : fid) (this : value) (args : list value) (σ : store).

Record state := State {
  st_store : store;
  st_trace : list event;
}.

Inductive exn :=
| TypeError
| Thrown (v : value)
| Unsupported.

Inductive completion (A : Type) :=
| Normal (a : A) (s : state)
| Abrupt (e : exn) (s : state).
Arguments Normal {A} a s.
Arguments Abrupt {A} e s.

Definition js (A : Type) : Type := state → completion A.

#[global] Instance js_ret : MRet js := λ A a s, Normal a s.
#[global] Instance js_bind : MBind js := λ A B k m s,
  match m s with
  | Normal a s' => k a s'
  | Abrupt e s' => Abrupt e s'
  end.

Definition final {A} (c : completion A) : state :=
  match c with Normal _ s | Abrupt _ s => s end.

(** How a run ended: [None] for normal completion, else what was thrown. *)
Definition outcome {A} (c : completion A) : option exn :=
  match c with Normal _ _ => None | Abrupt e _ => Some e end.

(** The two page globals of the protocol. *)
Definition register_implementors : string := "register_implementors".
Definition pending_implementors : string := "pending_implementors".

(** [window.name] as a value: a missing property reads as [undefined]. *)
Definition global (σ : store) (name : string) : value :=
  default VUndefined (window σ !! name).

Definition log (e : event) (s : state) : state :=
  State (st_store s) (st_trace s ++ [e]).

(** [window.name] *)
Definition get_global (name : string) : js value := λ s,
  Normal (global (st_store s) name) (log (EGet name) s).

(** [window.name = v] *)
Definition set_global (name : string) (v : value) : js unit := λ s,
  let σ := st_store s in
  Normal () (log (ESet name v) (State (Store (heap σ) (<[name := v]> (window σ))) (st_trace s))).

(** [{}] *)
Definition new_object : js value := λ s,
  let σ := st_store s in
  Normal (VObject (length (heap σ)))
         (State (Store (heap σ ++ [OPlain []]) (window σ)) (st_trace s)).

(** [[e1, ..., en]] *)
Definition new_array (elems : list value) : js value := λ s,
  let σ := st_store s in
  Normal (VObject (length (heap σ)))
         (State (Store (heap σ ++ [OArray elems]) (window σ)) (st_trace s)).

(** Assignment to an own property whose key is no array index: an existing
    key keeps its place, a new key goes last. *)
Fixpoint alist_set (k : string) (v : value) (ps : list (string * value))
  : list (string * value) :=
  match ps with
  | [] => [(k, v)]
  | (k', v') :: ps' =>
      if decide (k = k') then (k, v) :: ps' else (k', v') :: alist_set k v ps'
  end.

(** The keys the language treats apart.  An array index is the canonical
    decimal form of an integer below [2^32 - 1]: digits only, no leading
    zero. *)
Definition digit (c : ascii) : option N :=
  let n := N_of_ascii c in
  if ((48 <=? n) && (n <=? 57))%N then Some (n - 48)%N else None.

Fixpoint decimal (s : string) (acc : N) : option N :=
  match s with
  | EmptyString => Some acc
  | String c s' =>
      match digit c with
      | Some d => decimal s' (10 * acc + d)%N
      | None => None
      end
  end.

Definition array_index (k : string) : option N :=
  match k with
  | EmptyString => None
  | String c k' =>
      if Ascii.eqb c "0" && negb (String.eqb k' "") then None
      else match decimal k 0 with
           | Some n => if (n <? 4294967295)%N then Some n else None
           | None => None
           end
  end.

(** A new array-index key goes among the index keys, which come first, at
    its place in ascending order. *)
Fixpoint alist_add_index (i : N) (k : string) (v : value) (ps : list (string * value))
  : list (string * value) :=
  match ps with
  | [] => [(k, v)]
  | (k', v') :: ps' =>
      match array_index k' with
      | Some j =>
          if (j <? i)%N then (k', v') :: alist_add_index i k v ps' else (k, v) :: ps
      | None => (k, v) :: ps
      end
  end.

(** Assignment to an own property, for every key but [__proto__]. *)
Definition own_set (k : string) (v : value) (ps : list (string * value))
  : list (string * value) :=
  match array_index k with
  | Some i => if decide (k ∈ ps.*1) then alist_set k v ps else alist_add_index i k v ps
  | None => alist_set k v ps
  end.

(** A key that is neither [__proto__] nor an array index: assigned for the
    first time, it becomes the last own property. *)
Definition ordinary_key (k : string) : bool :=
  negb (String.eqb k "__proto__")
  && match array_index k with Some _ => false | None => true end.

Definition ordinary_keys (entries : list (string * list string)) : Prop :=
  Forall (λ e, ordinary_key e.1 = true) entries.

(** [o[k] = v].  On [undefined] and [null] the assignment throws; on the
    other primitives it is dropped (the scripts are not in strict mode).
    On a plain object the key [__proto__] is the accessor inherited from
    [Object.prototype]: its setter changes the prototype of the object at
    most, and adds no own property.  Named properties of arrays, functions
    and the global object are outside this model. *)
Definition set_prop (o : value) (k : string) (v : value) : js unit := λ s,
  let σ := st_store s in
  match o with
  | VUndefined | VNull => Abrupt TypeError s
  | VObject l =>
      match heap σ !! l with
      | Some (OPlain ps) =>
          if decide (k = "__proto__") then Normal () s
          else
            Normal () (State (Store (<[l := OPlain (own_set k v ps)]> (heap σ)) (window σ))
                             (st_trace s))
      | _ => Abrupt Unsupported s
      end
  | VFunction _ | VWindow => Abrupt Unsupported s
  | _ => Normal () s
  end.

(** ** The viewer runtime *)

(** A function of the runtime returns or throws, and leaves a store. *)
Inductive host_result :=
| HReturn (v : value) (σ : store)
| HThrow (v : value) (σ : store).

Definition host_store (r : host_result) : store :=
  match r with HReturn _ σ | HThrow _ σ => σ end.

(** How a call ends the run that made it. *)
Definition host_outcome (r : host_result) : option exn :=
  match r with HReturn _ _ => None | HThrow v _ => Some (Thrown v) end.

Definition runtime : Type := fid → value → list value → store → host_result.

Section Handoff.

Variable host : runtime.

(** [f.call(this, ...args)]: calling what is not callable throws a
    TypeError before anything is invoked. *)
Definition call (f this : value) (args : list value) : js value := λ s,
  match f with
  | VFunction fn =>
      let σ := st_store s in
      let s1 := log (ECall fn this args σ) s in
      match host fn this args σ with
      | HReturn v σ' => Normal v (State σ' (st_trace s1))
      | HThrow v σ' => Abrupt (Thrown v) (State σ' (st_trace s1))
      end
  | _ => Abrupt TypeError s
  end.

(** The dispatch that ends every page:
    <<
    if (window.register_implementors) {
        window.register_implementors(implementors);
    } else {
        window.pending_implementors = implementors;
    }
    >> *)
Definition handoff (implementors : value) : js unit :=
  c ← get_global register_implementors;
  if ToBoolean c then
    f ← get_global register_implementors;
    call f VWindow [implementors];;
    mret ()
  else
    set_global pending_implementors implementors.

(** [implementors[key] = [s1, ..., sn];] *)
Definition assign (implementors : value) (key : string) (strs : list string) : js unit :=
  a ← new_array (VString <$> strs);
  set_prop implementors key a.

(** The generator's template: one assignment per crate, then [rest]. *)
Fixpoint assign_all (implementors : value) (entries : list (string * list string))
    (rest : js unit) : js unit :=
  match entries with
  | [] => rest
  | (key, strs) :: entries' =>
      assign implementors key strs;; assign_all implementors entries' rest
  end.

Definition page (entries : list (string * list string)) : js unit :=
  implementors ← new_object;
  assign_all implementors entries (handoff implementors).

End Handoff.

(** ** The pages of this repository *)

(** The HTML snippets are full of double quotes: a snippet is written as
    the list of its pieces between them, in order. *)
Definition dquote : string := String "034"%char "".
Definition html (pieces : list string) : string := String.concat dquote pieces.

(** *** [implementors/std/error/trait.Error.js] *)

Definition trait_Error_log : list string := [
  html [
      "impl <a class="; "trait"; " href=";
      "https://doc.rust-lang.org/nightly/std/error/trait.Error.html"; " title=";
      "trait std::error::Error"; ">Error</a> for <a class="; "struct"; " href=";
      "log/struct.SetLoggerError.html"; " title="; "struct log::SetLoggerError";
      ">SetLoggerError</a>"];
  html [
      "impl <a class="; "trait"; " href=";
      "https://doc.rust-lang.org/nightly/std/error/trait.Error.html"; " title=";
      "trait std::error::Error"; ">Error</a> for <a class="; "struct"; " href=";
      "log/struct.ShutdownLoggerError.html"; " title="; "struct log::ShutdownLoggerError";
      ">ShutdownLoggerError</a>"]
].

Definition trait_Error_ndarray : list string := [
  html [
      "impl <a class="; "trait"; " href=";
      "https://doc.rust-lang.org/nightly/std/error/trait.Error.html"; " title=";
      "trait std::error::Error"; ">Error</a> for <a class="; "struct"; " href=";
      "ndarray/struct.ShapeError.html"; " title="; "struct ndarray::ShapeError";
      ">ShapeError</a>"]
].

Definition trait_Error_slog : list string := [
  html [
      "impl&lt;D&gt; <a class="; "trait"; " href=";
      "https://doc.rust-lang.org/nightly/std/error/trait.Error.html"; " title=";
      "trait std::error::Error"; ">Error</a> for <a class="; "enum"; " href=";
      "slog/enum.MutexDrainError.html"; " title="; "enum slog::MutexDrainError";
      ">MutexDrainError</a>&lt;D&gt; <span class="; "where fmt-newline";
      ">where<br>&nbsp;&nbsp;&nbsp;&nbsp;D: <a class="; "trait"; " href=";
      "slog/trait.Drain.html"; " title="; "trait slog::Drain";
      ">Drain</a>,<br>&nbsp;&nbsp;&nbsp;&nbsp;D::<a class="; "trait"; " href=";
      "slog/trait.Drain.html"; " title="; "trait slog::Drain"; ">Err</a>: <a class="; "trait";
      " href="; "https://doc.rust-lang.org/nightly/core/fmt/trait.Debug.html"; " title=";
      "trait core::fmt::Debug"; ">Debug</a> + <a class="; "trait"; " href=";
      "https://doc.rust-lang.org/nightly/core/fmt/trait.Display.html"; " title=";
      "trait core::fmt::Display"; ">Display</a> + <a class="; "trait"; " href=";
      "https://doc.rust-lang.org/nightly/std/error/trait.Error.html"; " title=";
      "trait std::error::Error"; ">Error</a>,&nbsp;</span>"];
  html [
      "impl <a class="; "trait"; " href=";
      "https://doc.rust-lang.org/nightly/std/error/trait.Error.html"; " title=";
      "trait std::error::Error"; ">Error</a> for <a class="; "enum"; " href=";
      "slog/enum.Error.html"; " title="; "enum slog::Error"; ">Error</a>"]
].

Definition trait_Error_time : list string := [
  html [
      "impl <a class="; "trait"; " href=";
      "https://doc.rust-lang.org/nightly/std/error/trait.Error.html"; " title=";
      "trait std::error::Error"; ">Error</a> for <a class="; "struct"; " href=";
      "time/struct.OutOfRangeError.html"; " title="; "struct time::OutOfRangeError";
      ">OutOfRangeError</a>"];
  html [
      "impl <a class="; "trait"; " href=";
      "https://doc.rust-lang.org/nightly/std/error/trait.Error.html"; " title=";
      "trait std::error::Error"; ">Error</a> for <a class="; "enum"; " href=";
      "time/enum.ParseError.html"; " title="; "enum time::ParseError"; ">ParseError</a>"]
].

Definition trait_Error_js (host : runtime) : js unit :=
  implementors ← new_object;
  assign implementors "itertools" [];;
  assign implementors "libc" [];;
  assign implementors "log" trait_Error_log;;
  assign implementors "ndarray" trait_Error_ndarray;;
  assign implementors "slog" trait_Error_slog;;
  assign implementors "time" trait_Error_time;;
  handoff host implementors.

Definition trait_Error_table : list (string * list string) :=
  [("itertools", []);
   ("libc", []);
   ("log", trait_Error_log);
   ("ndarray", trait_Error_ndarray);
   ("slog", trait_Error_slog);
   ("time", trait_Error_time)].

(** *** [implementors/core/ops/trait.BitXor.js] *)

Definition trait_BitXor_itertools : list string := [
  html [
      "impl&lt;'a, 'b, T, S&gt; <a class="; "trait"; " href=";
      "https://doc.rust-lang.org/nightly/core/ops/trait.BitXor.html"; " title=";
      "trait core::ops::BitXor"; ">BitXor</a>&lt;&amp;'b <a class="; "struct"; " href=";
      "https://doc.rust-lang.org/nightly/std/collections/hash/set/struct.HashSet.html";
      " title="; "struct std::collections::hash::set::HashSet";
      ">HashSet</a>&lt;T, S&gt;&gt; for &amp;'a <a class="; "struct"; " href=";
      "https://doc.rust-lang.org/nightly/std/collections/hash/set/struct.HashSet.html";
      " title="; "struct std::collections::hash::set::HashSet";
      ">HashSet</a>&lt;T, S&gt; <span class="; "where fmt-newline";
      ">where<br>&nbsp;&nbsp;&nbsp;&nbsp;S: <a class="; "trait"; " href=";
      "https://doc.rust-lang.org/nightly/core/hash/trait.BuildHasher.html"; " title=";
      "trait core::hash::BuildHasher"; ">BuildHasher</a> + <a class="; "trait"; " href=";
      "https://doc.rust-lang.org/nightly/core/default/trait.Default.html"; " title=";
      "trait core::default::Default"; ">Default</a>,<br>&nbsp;&nbsp;&nbsp;&nbsp;T: <a class=";
      "trait"; " href="; "https://doc.rust-lang.org/nightly/core/cmp/trait.Eq.html"; " title=";
      "trait core::cmp::Eq"; ">Eq</a> + <a class="; "trait"; " href=";
      "https://doc.rust-lang.org/nightly/core/hash/trait.Hash.html"; " title=";
      "trait core::hash::Hash"; ">Hash</a> + <a class="; "trait"; " href=";
      "https://doc.rust-lang.org/nightly/core/clone/trait.Clone.html"; " title=";
      "trait core::clone::Clone"; ">Clone</a>,&nbsp;</span>"];
  html [
      "impl&lt;'a, 'b, T&gt; <a class="; "trait"; " href=";
      "https://doc.rust-lang.org/nightly/core/ops/trait.BitXor.html"; " title=";
      "trait core::ops::BitXor"; ">BitXor</a>&lt;&amp;'b <a class="; "struct"; " href=";
      "https://doc.rust-lang.org/nightly/collections/btree/set/struct.BTreeSet.html"; " title=";
      "struct collections::btree::set::BTreeSet";
      ">BTreeSet</a>&lt;T&gt;&gt; for &amp;'a <a class="; "struct"; " href=";
      "https://doc.rust-lang.org/nightly/collections/btree/set/struct.BTreeSet.html"; " title=";
      "struct collections::btree::set::BTreeSet"; ">BTreeSet</a>&lt;T&gt; <span class=";
      "where fmt-newline"; ">where<br>&nbsp;&nbsp;&nbsp;&nbsp;T: <a class="; "trait"; " href=";
      "https://doc.rust-lang.org/nightly/core/cmp/trait.Ord.html"; " title=";
      "trait core::cmp::Ord"; ">Ord</a> + <a class="; "trait"; " href=";
      "https://doc.rust-lang.org/nightly/core/clone/trait.Clone.html"; " title=";
      "trait core::clone::Clone"; ">Clone</a>,&nbsp;</span>"]
].

Definition trait_BitXor_libc : list string := [
  html [
      "impl&lt;'a, 'b, T, S&gt; <a class="; "trait"; " href=";
      "https://doc.rust-lang.org/nightly/core/ops/trait.BitXor.html"; " title=";
      "trait core::ops::BitXor"; ">BitXor</a>&lt;&amp;'b <a class="; "struct"; " href=";
      "https://doc.rust-lang.org/nightly/std/collections/hash/set/struct.HashSet.html";
      " title="; "struct std::collections::hash::set::HashSet";
      ">HashSet</a>&lt;T, S&gt;&gt; for &amp;'a <a class="; "struct"; " href=";
      "https://doc.rust-lang.org/nightly/std/collections/hash/set/struct.HashSet.html";
      " title="; "struct std::collections::hash::set::HashSet";
      ">HashSet</a>&lt;T, S&gt; <span class="; "where fmt-newline";
      ">where<br>&nbsp;&nbsp;&nbsp;&nbsp;S: <a class="; "trait"; " href=";
      "https://doc.rust-lang.org/nightly/core/hash/trait.BuildHasher.html"; " title=";
      "trait core::hash::BuildHasher"; ">BuildHasher</a> + <a class="; "trait"; " href=";
      "https://doc.rust-lang.org/nightly/core/default/trait.Default.html"; " title=";
      "trait core::default::Default"; ">Default</a>,<br>&nbsp;&nbsp;&nbsp;&nbsp;T: <a class=";
      "trait"; " href="; "https://doc.rust-lang.org/nightly/core/cmp/trait.Eq.html"; " title=";
      "trait core::cmp::Eq"; ">Eq</a> + <a class="; "trait"; " href=";
      "https://doc.rust-lang.org/nightly/core/hash/trait.Hash.html"; " title=";
      "trait core::hash::Hash"; ">Hash</a> + <a class="; "trait"; " href=";
      "https://doc.rust-lang.org/nightly/core/clone/trait.Clone.html"; " title=";
      "trait core::clone::Clone"; ">Clone</a>,&nbsp;</span>"];
  html [
      "impl&lt;'a, 'b, T&gt; <a class="; "trait"; " href=";
      "https://doc.rust-lang.org/nightly/core/ops/trait.BitXor.html"; " title=";
      "trait core::ops::BitXor"; ">BitXor</a>&lt;&amp;'b <a class="; "struct"; " href=";
      "https://doc.rust-lang.org/nightly/collections/btree/set/struct.BTreeSet.html"; " title=";
      "struct collections::btree::set::BTreeSet";
      ">BTreeSet</a>&lt;T&gt;&gt; for &amp;'a <a class="; "struct"; " href=";
      "https://doc.rust-lang.org/nightly/collections/btree/set/struct.BTreeSet.html"; " title=";
      "struct collections::btree::set::BTreeSet"; ">BTreeSet</a>&lt;T&gt; <span class=";
      "where fmt-newline"; ">where<br>&nbsp;&nbsp;&nbsp;&nbsp;T: <a class="; "trait"; " href=";
      "https://doc.rust-lang.org/nightly/core/cmp/trait.Ord.html"; " title=";
      "trait core::cmp::Ord"; ">Ord</a> + <a class="; "trait"; " href=";
      "https://doc.rust-lang.org/nightly/core/clone/trait.Clone.html"; " title=";
      "trait core::clone::Clone"; ">Clone</a>,&nbsp;</span>"]
].

Definition trait_BitXor_ndarray : list string := [
  html [
      "impl&lt;A, S, S2, D, E&gt; <a class="; "trait"; " href=";
      "https://doc.rust-lang.org/nightly/core/ops/trait.BitXor.html"; " title=";
      "trait core::ops::BitXor"; ">BitXor</a>&lt;<a class="; "struct"; " href=";
      "ndarray/struct.ArrayBase.html"; " title="; "struct ndarray::ArrayBase";
      ">ArrayBase</a>&lt;S2, E&gt;&gt; for <a class="; "struct"; " href=";
      "ndarray/struct.ArrayBase.html"; " title="; "struct ndarray::ArrayBase";
      ">ArrayBase</a>&lt;S, D&gt; <span class="; "where fmt-newline";
      ">where<br>&nbsp;&nbsp;&nbsp;&nbsp;A: <a class="; "trait"; " href=";
      "https://doc.rust-lang.org/nightly/core/clone/trait.Clone.html"; " title=";
      "trait core::clone::Clone"; ">Clone</a> + <a class="; "trait"; " href=";
      "https://doc.rust-lang.org/nightly/core/ops/trait.BitXor.html"; " title=";
      "trait core::ops::BitXor";
      ">BitXor</a>&lt;A, Output = A&gt;,<br>&nbsp;&nbsp;&nbsp;&nbsp;S: <a class="; "trait";
      " href="; "ndarray/trait.DataOwned.html"; " title="; "trait ndarray::DataOwned";
      ">DataOwned</a>&lt;Elem = A&gt; + <a class="; "trait"; " href=";
      "ndarray/trait.DataMut.html"; " title="; "trait ndarray::DataMut";
      ">DataMut</a>,<br>&nbsp;&nbsp;&nbsp;&nbsp;S2: <a class="; "trait"; " href=";
      "ndarray/trait.Data.html"; " title="; "trait ndarray::Data";
      ">Data</a>&lt;Elem = A&gt;,<br>&nbsp;&nbsp;&nbsp;&nbsp;D: <a class="; "trait"; " href=";
      "ndarray/trait.Dimension.html"; " title="; "trait ndarray::Dimension";
      ">Dimension</a>,<br>&nbsp;&nbsp;&nbsp;&nbsp;E: <a class="; "trait"; " href=";
      "ndarray/trait.Dimension.html"; " title="; "trait ndarray::Dimension";
      ">Dimension</a>,&nbsp;</span>"];
  html [
      "impl&lt;'a, A, S, S2, D, E&gt; <a class="; "trait"; " href=";
      "https://doc.rust-lang.org/nightly/core/ops/trait.BitXor.html"; " title=";
      "trait core::ops::BitXor"; ">BitXor</a>&lt;&amp;'a <a class="; "struct"; " href=";
      "ndarray/struct.ArrayBase.html"; " title="; "struct ndarray::ArrayBase";
      ">ArrayBase</a>&lt;S2, E&gt;&gt; for <a class="; "struct"; " href=";
      "ndarray/struct.ArrayBase.html"; " title="; "struct ndarray::ArrayBase";
      ">ArrayBase</a>&lt;S, D&gt; <span class="; "where fmt-newline";
      ">where<br>&nbsp;&nbsp;&nbsp;&nbsp;A: <a class="; "trait"; " href=";
      "https://doc.rust-lang.org/nightly/core/clone/trait.Clone.html"; " title=";
      "trait core::clone::Clone"; ">Clone</a> + <a class="; "trait"; " href=";
      "https://doc.rust-lang.org/nightly/core/ops/trait.BitXor.html"; " title=";
      "trait core::ops::BitXor";
      ">BitXor</a>&lt;A, Output = A&gt;,<br>&nbsp;&nbsp;&nbsp;&nbsp;S: <a class="; "trait";
      " href="; "ndarray/trait.DataMut.html"; " title="; "trait ndarray::DataMut";
      ">DataMut</a>&lt;Elem = A&gt;,<br>&nbsp;&nbsp;&nbsp;&nbsp;S2: <a class="; "trait";
      " href="; "ndarray/trait.Data.html"; " title="; "trait ndarray::Data";
      ">Data</a>&lt;Elem = A&gt;,<br>&nbsp;&nbsp;&nbsp;&nbsp;D: <a class="; "trait"; " href=";
      "ndarray/trait.Dimension.html"; " title="; "trait ndarray::Dimension";
      ">Dimension</a>,<br>&nbsp;&nbsp;&nbsp;&nbsp;E: <a class="; "trait"; " href=";
      "ndarray/trait.Dimension.html"; " title="; "trait ndarray::Dimension";
      ">Dimension</a>,&nbsp;</span>"];
  html [
      "impl&lt;'a, 'b, A, S, S2, D, E&gt; <a class="; "trait"; " href=";
      "https://doc.rust-lang.org/nightly/core/ops/trait.BitXor.html"; " title=";
      "trait core::ops::BitXor"; ">BitXor</a>&lt;&amp;'a <a class="; "struct"; " href=";
      "ndarray/struct.ArrayBase.html"; " title="; "struct ndarray::ArrayBase";
      ">ArrayBase</a>&lt;S2, E&gt;&gt; for &amp;'b <a class="; "struct"; " href=";
      "ndarray/struct.ArrayBase.html"; " title="; "struct ndarray::ArrayBase";
      ">ArrayBase</a>&lt;S, D&gt; <span class="; "where fmt-newline";
      ">where<br>&nbsp;&nbsp;&nbsp;&nbsp;A: <a class="; "trait"; " href=";
      "https://doc.rust-lang.org/nightly/core/clone/trait.Clone.html"; " title=";
      "trait core::clone::Clone"; ">Clone</a> + <a class="; "trait"; " href=";
      "https://doc.rust-lang.org/nightly/core/ops/trait.BitXor.html"; " title=";
      "trait core::ops::BitXor";
      ">BitXor</a>&lt;A, Output = A&gt;,<br>&nbsp;&nbsp;&nbsp;&nbsp;S: <a class="; "trait";
      " href="; "ndarray/trait.Data.html"; " title="; "trait ndarray::Data";
      ">Data</a>&lt;Elem = A&gt;,<br>&nbsp;&nbsp;&nbsp;&nbsp;S2: <a class="; "trait"; " href=";
      "ndarray/trait.Data.html"; " title="; "trait ndarray::Data";
      ">Data</a>&lt;Elem = A&gt;,<br>&nbsp;&nbsp;&nbsp;&nbsp;D: <a class="; "trait"; " href=";
      "ndarray/trait.Dimension.html"; " title="; "trait ndarray::Dimension";
      ">Dimension</a>,<br>&nbsp;&nbsp;&nbsp;&nbsp;E: <a class="; "trait"; " href=";
      "ndarray/trait.Dimension.html"; " title="; "trait ndarray::Dimension";
      ">Dimension</a>,&nbsp;</span>"];
  html [
      "impl&lt;A, S, D, B&gt; <a class="; "trait"; " href=";
      "https://doc.rust-lang.org/nightly/core/ops/trait.BitXor.html"; " title=";
      "trait core::ops::BitXor"; ">BitXor</a>&lt;B&gt; for <a class="; "struct"; " href=";
      "ndarray/struct.ArrayBase.html"; " title="; "struct ndarray::ArrayBase";
      ">ArrayBase</a>&lt;S, D&gt; <span class="; "where fmt-newline";
      ">where<br>&nbsp;&nbsp;&nbsp;&nbsp;A: <a class="; "trait"; " href=";
      "https://doc.rust-lang.org/nightly/core/clone/trait.Clone.html"; " title=";
      "trait core::clone::Clone"; ">Clone</a> + <a class="; "trait"; " href=";
      "https://doc.rust-lang.org/nightly/core/ops/trait.BitXor.html"; " title=";
      "trait core::ops::BitXor";
      ">BitXor</a>&lt;B, Output = A&gt;,<br>&nbsp;&nbsp;&nbsp;&nbsp;S: <a class="; "trait";
      " href="; "ndarray/trait.DataOwned.html"; " title="; "trait ndarray::DataOwned";
      ">DataOwned</a>&lt;Elem = A&gt; + <a class="; "trait"; " href=";
      "ndarray/trait.DataMut.html"; " title="; "trait ndarray::DataMut";
      ">DataMut</a>,<br>&nbsp;&nbsp;&nbsp;&nbsp;D: <a class="; "trait"; " href=";
      "ndarray/trait.Dimension.html"; " title="; "trait ndarray::Dimension";
      ">Dimension</a>,<br>&nbsp;&nbsp;&nbsp;&nbsp;B: <a class="; "trait"; " href=";
      "ndarray/trait.ScalarOperand.html"; " title="; "trait ndarray::ScalarOperand";
      ">ScalarOperand</a>,&nbsp;</span>"];
  html [
      "impl&lt;'a, A, S, D, B&gt; <a class="; "trait"; " href=";
      "https://doc.rust-lang.org/nightly/core/ops/trait.BitXor.html"; " title=";
      "trait core::ops::BitXor"; ">BitXor</a>&lt;B&gt; for &amp;'a <a class="; "struct";
      " href="; "ndarray/struct.ArrayBase.html"; " title="; "struct ndarray::ArrayBase";
      ">ArrayBase</a>&lt;S, D&gt; <span class="; "where fmt-newline";
      ">where<br>&nbsp;&nbsp;&nbsp;&nbsp;A: <a class="; "trait"; " href=";
      "https://doc.rust-lang.org/nightly/core/clone/trait.Clone.html"; " title=";
      "trait core::clone::Clone"; ">Clone</a> + <a class="; "trait"; " href=";
      "https://doc.rust-lang.org/nightly/core/ops/trait.BitXor.html"; " title=";
      "trait core::ops::BitXor";
      ">BitXor</a>&lt;B, Output = A&gt;,<br>&nbsp;&nbsp;&nbsp;&nbsp;S: <a class="; "trait";
      " href="; "ndarray/trait.Data.html"; " title="; "trait ndarray::Data";
      ">Data</a>&lt;Elem = A&gt;,<br>&nbsp;&nbsp;&nbsp;&nbsp;D: <a class="; "trait"; " href=";
      "ndarray/trait.Dimension.html"; " title="; "trait ndarray::Dimension";
      ">Dimension</a>,<br>&nbsp;&nbsp;&nbsp;&nbsp;B: <a class="; "trait"; " href=";
      "ndarray/trait.ScalarOperand.html"; " title="; "trait ndarray::ScalarOperand";
      ">ScalarOperand</a>,&nbsp;</span>"];
  html [
      "impl&lt;S, D&gt; <a class="; "trait"; " href=";
      "https://doc.rust-lang.org/nightly/core/ops/trait.BitXor.html"; " title=";
      "trait core::ops::BitXor"; ">BitXor</a>&lt;<a class="; "struct"; " href=";
      "ndarray/struct.ArrayBase.html"; " title="; "struct ndarray::ArrayBase";
      ">ArrayBase</a>&lt;S, D&gt;&gt; for <a class="; "primitive"; " href=";
      "https://doc.rust-lang.org/nightly/std/primitive.i8.html"; ">i8</a> <span class=";
      "where fmt-newline"; ">where<br>&nbsp;&nbsp;&nbsp;&nbsp;S: <a class="; "trait"; " href=";
      "ndarray/trait.DataOwned.html"; " title="; "trait ndarray::DataOwned";
      ">DataOwned</a>&lt;Elem = <a class="; "primitive"; " href=";
      "https://doc.rust-lang.org/nightly/std/primitive.i8.html"; ">i8</a>&gt; + <a class=";
      "trait"; " href="; "ndarray/trait.DataMut.html"; " title="; "trait ndarray::DataMut";
      ">DataMut</a>,<br>&nbsp;&nbsp;&nbsp;&nbsp;D: <a class="; "trait"; " href=";
      "ndarray/trait.Dimension.html"; " title="; "trait ndarray::Dimension";
      ">Dimension</a>,&nbsp;</span>"];
  html [
      "impl&lt;'a, S, D&gt; <a class="; "trait"; " href=";
      "https://doc.rust-lang.org/nightly/core/ops/trait.BitXor.html"; " title=";
      "trait core::ops::BitXor"; ">BitXor</a>&lt;&amp;'a <a class="; "struct"; " href=";
      "ndarray/struct.ArrayBase.html"; " title="; "struct ndarray::ArrayBase";
      ">ArrayBase</a>&lt;S, D&gt;&gt; for <a class="; "primitive"; " href=";
      "https://doc.rust-lang.org/nightly/std/primitive.i8.html"; ">i8</a> <span class=";
      "where fmt-newline"; ">where<br>&nbsp;&nbsp;&nbsp;&nbsp;S: <a class="; "trait"; " href=";
      "ndarray/trait.Data.html"; " title="; "trait ndarray::Data";
      ">Data</a>&lt;Elem = <a class="; "primitive"; " href=";
      "https://doc.rust-lang.org/nightly/std/primitive.i8.html";
      ">i8</a>&gt;,<br>&nbsp;&nbsp;&nbsp;&nbsp;D: <a class="; "trait"; " href=";
      "ndarray/trait.Dimension.html"; " title="; "trait ndarray::Dimension";
      ">Dimension</a>,&nbsp;</span>"];
  html [
      "impl&lt;S, D&gt; <a class="; "trait"; " href=";
      "https://doc.rust-lang.org/nightly/core/ops/trait.BitXor.html"; " title=";
      "trait core::ops::BitXor"; ">BitXor</a>&lt;<a class="; "struct"; " href=";
      "ndarray/struct.ArrayBase.html"; " title="; "struct ndarray::ArrayBase";
      ">ArrayBase</a>&lt;S, D&gt;&gt; for <a class="; "primitive"; " href=";
      "https://doc.rust-lang.org/nightly/std/primitive.u8.html"; ">u8</a> <span class=";
      "where fmt-newline"; ">where<br>&nbsp;&nbsp;&nbsp;&nbsp;S: <a class="; "trait"; " href=";
      "ndarray/trait.DataOwned.html"; " title="; "trait ndarray::DataOwned";
      ">DataOwned</a>&lt;Elem = <a class="; "primitive"; " href=";
      "https://doc.rust-lang.org/nightly/std/primitive.u8.html"; ">u8</a>&gt; + <a class=";
      "trait"; " href="; "ndarray/trait.DataMut.html"; " title="; "trait ndarray::DataMut";
      ">DataMut</a>,<br>&nbsp;&nbsp;&nbsp;&nbsp;D: <a class="; "trait"; " href=";
      "ndarray/trait.Dimension.html"; " title="; "trait ndarray::Dimension";
      ">Dimension</a>,&nbsp;</span>"];
  html [
      "impl&lt;'a, S, D&gt; <a class="; "trait"; " href=";
      "https://doc.rust-lang.org/nightly/core/ops/trait.BitXor.html"; " title=";
      "trait core::ops::BitXor"; ">BitXor</a>&lt;&amp;'a <a class="; "struct"; " href=";
      "ndarray/struct.ArrayBase.html"; " title="; "struct ndarray::ArrayBase";
      ">ArrayBase</a>&lt;S, D&gt;&gt; for <a class="; "primitive"; " href=";
      "https://doc.rust-lang.org/nightly/std/primitive.u8.html"; ">u8</a> <span class=";
      "where fmt-newline"; ">where<br>&nbsp;&nbsp;&nbsp;&nbsp;S: <a class="; "trait"; " href=";
      "ndarray/trait.Data.html"; " title="; "trait ndarray::Data";
      ">Data</a>&lt;Elem = <a class="; "primitive"; " href=";
      "https://doc.rust-lang.org/nightly/std/primitive.u8.html";
      ">u8</a>&gt;,<br>&nbsp;&nbsp;&nbsp;&nbsp;D: <a class="; "trait"; " href=";
      "ndarray/trait.Dimension.html"; " title="; "trait ndarray::Dimension";
      ">Dimension</a>,&nbsp;</span>"];
  html [
      "impl&lt;S, D&gt; <a class="; "trait"; " href=";
      "https://doc.rust-lang.org/nightly/core/ops/trait.BitXor.html"; " title=";
      "trait core::ops::BitXor"; ">BitXor</a>&lt;<a class="; "struct"; " href=";
      "ndarray/struct.ArrayBase.html"; " title="; "struct ndarray::ArrayBase";
      ">ArrayBase</a>&lt;S, D&gt;&gt; for <a class="; "primitive"; " href=";
      "https://doc.rust-lang.org/nightly/std/primitive.i16.html"; ">i16</a> <span class=";
      "where fmt-newline"; ">where<br>&nbsp;&nbsp;&nbsp;&nbsp;S: <a class="; "trait"; " href=";
      "ndarray/trait.DataOwned.html"; " title="; "trait ndarray::DataOwned";
      ">DataOwned</a>&lt;Elem = <a class="; "primitive"; " href=";
      "https://doc.rust-lang.org/nightly/std/primitive.i16.html"; ">i16</a>&gt; + <a class=";
      "trait"; " href="; "ndarray/trait.DataMut.html"; " title="; "trait ndarray::DataMut";
      ">DataMut</a>,<br>&nbsp;&nbsp;&nbsp;&nbsp;D: <a class="; "trait"; " href=";
      "ndarray/trait.Dimension.html"; " title="; "trait ndarray::Dimension";
      ">Dimension</a>,&nbsp;</span>"];
  html [
      "impl&lt;'a, S, D&gt; <a class="; "trait"; " href=";
      "https://doc.rust-lang.org/nightly/core/ops/trait.BitXor.html"; " title=";
      "trait core::ops::BitXor"; ">BitXor</a>&lt;&amp;'a <a class="; "struct"; " href=";
      "ndarray/struct.ArrayBase.html"; " title="; "struct ndarray::ArrayBase";
      ">ArrayBase</a>&lt;S, D&gt;&gt; for <a class="; "primitive"; " href=";
      "https://doc.rust-lang.org/nightly/std/primitive.i16.html"; ">i16</a> <span class=";
      "where fmt-newline"; ">where<br>&nbsp;&nbsp;&nbsp;&nbsp;S: <a class="; "trait"; " href=";
      "ndarray/trait.Data.html"; " title="; "trait ndarray::Data";
      ">Data</a>&lt;Elem = <a class="; "primitive"; " href=";
      "https://doc.rust-lang.org/nightly/std/primitive.i16.html";
      ">i16</a>&gt;,<br>&nbsp;&nbsp;&nbsp;&nbsp;D: <a class="; "trait"; " href=";
      "ndarray/trait.Dimension.html"; " title="; "trait ndarray::Dimension";
      ">Dimension</a>,&nbsp;</span>"];
  html [
      "impl&lt;S, D&gt; <a class="; "trait"; " href=";
      "https://doc.rust-lang.org/nightly/core/ops/trait.BitXor.html"; " title=";
      "trait core::ops::BitXor"; ">BitXor</a>&lt;<a class="; "struct"; " href=";
      "ndarray/struct.ArrayBase.html"; " title="; "struct ndarray::ArrayBase";
      ">ArrayBase</a>&lt;S, D&gt;&gt; for <a class="; "primitive"; " href=";
      "https://doc.rust-lang.org/nightly/std/primitive.u16.html"; ">u16</a> <span class=";
      "where fmt-newline"; ">where<br>&nbsp;&nbsp;&nbsp;&nbsp;S: <a class="; "trait"; " href=";
      "ndarray/trait.DataOwned.html"; " title="; "trait ndarray::DataOwned";
      ">DataOwned</a>&lt;Elem = <a class="; "primitive"; " href=";
      "https://doc.rust-lang.org/nightly/std/primitive.u16.html"; ">u16</a>&gt; + <a class=";
      "trait"; " href="; "ndarray/trait.DataMut.html"; " title="; "trait ndarray::DataMut";
      ">DataMut</a>,<br>&nbsp;&nbsp;&nbsp;&nbsp;D: <a class="; "trait"; " href=";
      "ndarray/trait.Dimension.html"; " title="; "trait ndarray::Dimension";
      ">Dimension</a>,&nbsp;</span>"];
  html [
      "impl&lt;'a, S, D&gt; <a class="; "trait"; " href=";
      "https://doc.rust-lang.org/nightly/core/ops/trait.BitXor.html"; " title=";
      "trait core::ops::BitXor"; ">BitXor</a>&lt;&amp;'a <a class="; "struct"; " href=";
      "ndarray/struct.ArrayBase.html"; " title="; "struct ndarray::ArrayBase";
      ">ArrayBase</a>&lt;S, D&gt;&gt; for <a class="; "primitive"; " href=";
      "https://doc.rust-lang.org/nightly/std/primitive.u16.html"; ">u16</a> <span class=";
      "where fmt-newline"; ">where<br>&nbsp;&nbsp;&nbsp;&nbsp;S: <a class="; "trait"; " href=";
      "ndarray/trait.Data.html"; " title="; "trait ndarray::Data";
      ">Data</a>&lt;Elem = <a class="; "primitive"; " href=";
      "https://doc.rust-lang.org/nightly/std/primitive.u16.html";
      ">u16</a>&gt;,<br>&nbsp;&nbsp;&nbsp;&nbsp;D: <a class="; "trait"; " href=";
      "ndarray/trait.Dimension.html"; " title="; "trait ndarray::Dimension";
      ">Dimension</a>,&nbsp;</span>"];
  html [
      "impl&lt;S, D&gt; <a class="; "trait"; " href=";
      "https://doc.rust-lang.org/nightly/core/ops/trait.BitXor.html"; " title=";
      "trait core::ops::BitXor"; ">BitXor</a>&lt;<a class="; "struct"; " href=";
      "ndarray/struct.ArrayBase.html"; " title="; "struct ndarray::ArrayBase";
      ">ArrayBase</a>&lt;S, D&gt;&gt; for <a class="; "primitive"; " href=";
      "https://doc.rust-lang.org/nightly/std/primitive.i32.html"; ">i32</a> <span class=";
      "where fmt-newline"; ">where<br>&nbsp;&nbsp;&nbsp;&nbsp;S: <a class="; "trait"; " href=";
      "ndarray/trait.DataOwned.html"; " title="; "trait ndarray::DataOwned";
      ">DataOwned</a>&lt;Elem = <a class="; "primitive"; " href=";
      "https://doc.rust-lang.org/nightly/std/primitive.i32.html"; ">i32</a>&gt; + <a class=";
      "trait"; " href="; "ndarray/trait.DataMut.html"; " title="; "trait ndarray::DataMut";
      ">DataMut</a>,<br>&nbsp;&nbsp;&nbsp;&nbsp;D: <a class="; "trait"; " href=";
      "ndarray/trait.Dimension.html"; " title="; "trait ndarray::Dimension";
      ">Dimension</a>,&nbsp;</span>"];
  html [
      "impl&lt;'a, S, D&gt; <a class="; "trait"; " href=";
      "https://doc.rust-lang.org/nightly/core/ops/trait.BitXor.html"; " title=";
      "trait core::ops::BitXor"; ">BitXor</a>&lt;&amp;'a <a class="; "struct"; " href=";
      "ndarray/struct.ArrayBase.html"; " title="; "struct ndarray::ArrayBase";
      ">ArrayBase</a>&lt;S, D&gt;&gt; for <a class="; "primitive"; " href=";
      "https://doc.rust-lang.org/nightly/std/primitive.i32.html"; ">i32</a> <span class=";
      "where fmt-newline"; ">where<br>&nbsp;&nbsp;&nbsp;&nbsp;S: <a class="; "trait"; " href=";
      "ndarray/trait.Data.html"; " title="; "trait ndarray::Data";
      ">Data</a>&lt;Elem = <a class="; "primitive"; " href=";
      "https://doc.rust-lang.org/nightly/std/primitive.i32.html";
      ">i32</a>&gt;,<br>&nbsp;&nbsp;&nbsp;&nbsp;D: <a class="; "trait"; " href=";
      "ndarray/trait.Dimension.html"; " title="; "trait ndarray::Dimension";
      ">Dimension</a>,&nbsp;</span>"];
  html [
      "impl&lt;S, D&gt; <a class="; "trait"; " href=";
      "https://doc.rust-lang.org/nightly/core/ops/trait.BitXor.html"; " title=";
      "trait core::ops::BitXor"; ">BitXor</a>&lt;<a class="; "struct"; " href=";
      "ndarray/struct.ArrayBase.html"; " title="; "struct ndarray::ArrayBase";
      ">ArrayBase</a>&lt;S, D&gt;&gt; for <a class="; "primitive"; " href=";
      "https://doc.rust-lang.org/nightly/std/primitive.u32.html"; ">u32</a> <span class=";
      "where fmt-newline"; ">where<br>&nbsp;&nbsp;&nbsp;&nbsp;S: <a class="; "trait"; " href=";
      "ndarray/trait.DataOwned.html"; " title="; "trait ndarray::DataOwned";
      ">DataOwned</a>&lt;Elem = <a class="; "primitive"; " href=";
      "https://doc.rust-lang.org/nightly/std/primitive.u32.html"; ">u32</a>&gt; + <a class=";
      "trait"; " href="; "ndarray/trait.DataMut.html"; " title="; "trait ndarray::DataMut";
      ">DataMut</a>,<br>&nbsp;&nbsp;&nbsp;&nbsp;D: <a class="; "trait"; " href=";
      "ndarray/trait.Dimension.html"; " title="; "trait ndarray::Dimension";
      ">Dimension</a>,&nbsp;</span>"];
  html [
      "impl&lt;'a, S, D&gt; <a class="; "trait"; " href=";
      "https://doc.rust-lang.org/nightly/core/ops/trait.BitXor.html"; " title=";
      "trait core::ops::BitXor"; ">BitXor</a>&lt;&amp;'a <a class="; "struct"; " href=";
      "ndarray/struct.ArrayBase.html"; " title="; "struct ndarray::ArrayBase";
      ">ArrayBase</a>&lt;S, D&gt;&gt; for <a class="; "primitive"; " href=";
      "https://doc.rust-lang.org/nightly/std/primitive.u32.html"; ">u32</a> <span class=";
      "where fmt-newline"; ">where<br>&nbsp;&nbsp;&nbsp;&nbsp;S: <a class="; "trait"; " href=";
      "ndarray/trait.Data.html"; " title="; "trait ndarray::Data";
      ">Data</a>&lt;Elem = <a class="; "primitive"; " href=";
      "https://doc.rust-lang.org/nightly/std/primitive.u32.html";
      ">u32</a>&gt;,<br>&nbsp;&nbsp;&nbsp;&nbsp;D: <a class="; "trait"; " href=";
      "ndarray/trait.Dimension.html"; " title="; "trait ndarray::Dimension";
      ">Dimension</a>,&nbsp;</span>"];
  html [
      "impl&lt;S, D&gt; <a class="; "trait"; " href=";
      "https://doc.rust-lang.org/nightly/core/ops/trait.BitXor.html"; " title=";
      "trait core::ops::BitXor"; ">BitXor</a>&lt;<a class="; "struct"; " href=";
      "ndarray/struct.ArrayBase.html"; " title="; "struct ndarray::ArrayBase";
      ">ArrayBase</a>&lt;S, D&gt;&gt; for <a class="; "primitive"; " href=";
      "https://doc.rust-lang.org/nightly/std/primitive.i64.html"; ">i64</a> <span class=";
      "where fmt-newline"; ">where<br>&nbsp;&nbsp;&nbsp;&nbsp;S: <a class="; "trait"; " href=";
      "ndarray/trait.DataOwned.html"; " title="; "trait ndarray::DataOwned";
      ">DataOwned</a>&lt;Elem = <a class="; "primitive"; " href=";
      "https://doc.rust-lang.org/nightly/std/primitive.i64.html"; ">i64</a>&gt; + <a class=";
      "trait"; " href="; "ndarray/trait.DataMut.html"; " title="; "trait ndarray::DataMut";
      ">DataMut</a>,<br>&nbsp;&nbsp;&nbsp;&nbsp;D: <a class="; "trait"; " href=";
      "ndarray/trait.Dimension.html"; " title="; "trait ndarray::Dimension";
      ">Dimension</a>,&nbsp;</span>"];
  html [
      "impl&lt;'a, S, D&gt; <a class="; "trait"; " href=";
      "https://doc.rust-lang.org/nightly/core/ops/trait.BitXor.html"; " title=";
      "trait core::ops::BitXor"; ">BitXor</a>&lt;&amp;'a <a class="; "struct"; " href=";
      "ndarray/struct.ArrayBase.html"; " title="; "struct ndarray::ArrayBase";
      ">ArrayBase</a>&lt;S, D&gt;&gt; for <a class="; "primitive"; " href=";
      "https://doc.rust-lang.org/nightly/std/primitive.i64.html"; ">i64</a> <span class=";
      "where fmt-newline"; ">where<br>&nbsp;&nbsp;&nbsp;&nbsp;S: <a class="; "trait"; " href=";
      "ndarray/trait.Data.html"; " title="; "trait ndarray::Data";
      ">Data</a>&lt;Elem = <a class="; "primitive"; " href=";
      "https://doc.rust-lang.org/nightly/std/primitive.i64.html";
      ">i64</a>&gt;,<br>&nbsp;&nbsp;&nbsp;&nbsp;D: <a class="; "trait"; " href=";
      "ndarray/trait.Dimension.html"; " title="; "trait ndarray::Dimension";
      ">Dimension</a>,&nbsp;</span>"];
  html [
      "impl&lt;S, D&gt; <a class="; "trait"; " href=";
      "https://doc.rust-lang.org/nightly/core/ops/trait.BitXor.html"; " title=";
      "trait core::ops::BitXor"; ">BitXor</a>&lt;<a class="; "struct"; " href=";
      "ndarray/struct.ArrayBase.html"; " title="; "struct ndarray::ArrayBase";
      ">ArrayBase</a>&lt;S, D&gt;&gt; for <a class="; "primitive"; " href=";
      "https://doc.rust-lang.org/nightly/std/primitive.u64.html"; ">u64</a> <span class=";
      "where fmt-newline"; ">where<br>&nbsp;&nbsp;&nbsp;&nbsp;S: <a class="; "trait"; " href=";
      "ndarray/trait.DataOwned.html"; " title="; "trait ndarray::DataOwned";
      ">DataOwned</a>&lt;Elem = <a class="; "primitive"; " href=";
      "https://doc.rust-lang.org/nightly/std/primitive.u64.html"; ">u64</a>&gt; + <a class=";
      "trait"; " href="; "ndarray/trait.DataMut.html"; " title="; "trait ndarray::DataMut";
      ">DataMut</a>,<br>&nbsp;&nbsp;&nbsp;&nbsp;D: <a class="; "trait"; " href=";
      "ndarray/trait.Dimension.html"; " title="; "trait ndarray::Dimension";
      ">Dimension</a>,&nbsp;</span>"];
  html [
      "impl&lt;'a, S, D&gt; <a class="; "trait"; " href=";
      "https://doc.rust-lang.org/nightly/core/ops/trait.BitXor.html"; " title=";
      "trait core::ops::BitXor"; ">BitXor</a>&lt;&amp;'a <a class="; "struct"; " href=";
      "ndarray/struct.ArrayBase.html"; " title="; "struct ndarray::ArrayBase";
      ">ArrayBase</a>&lt;S, D&gt;&gt; for <a class="; "primitive"; " href=";
      "https://doc.rust-lang.org/nightly/std/primitive.u64.html"; ">u64</a> <span class=";
      "where fmt-newline"; ">where<br>&nbsp;&nbsp;&nbsp;&nbsp;S: <a class="; "trait"; " href=";
      "ndarray/trait.Data.html"; " title="; "trait ndarray::Data";
      ">Data</a>&lt;Elem = <a class="; "primitive"; " href=";
      "https://doc.rust-lang.org/nightly/std/primitive.u64.html";
      ">u64</a>&gt;,<br>&nbsp;&nbsp;&nbsp;&nbsp;D: <a class="; "trait"; " href=";
      "ndarray/trait.Dimension.html"; " title="; "trait ndarray::Dimension";
      ">Dimension</a>,&nbsp;</span>"];
  html [
      "impl&lt;S, D&gt; <a class="; "trait"; " href=";
      "https://doc.rust-lang.org/nightly/core/ops/trait.BitXor.html"; " title=";
      "trait core::ops::BitXor"; ">BitXor</a>&lt;<a class="; "struct"; " href=";
      "ndarray/struct.ArrayBase.html"; " title="; "struct ndarray::ArrayBase";
      ">ArrayBase</a>&lt;S, D&gt;&gt; for <a class="; "primitive"; " href=";
      "https://doc.rust-lang.org/nightly/std/primitive.bool.html"; ">bool</a> <span class=";
      "where fmt-newline"; ">where<br>&nbsp;&nbsp;&nbsp;&nbsp;S: <a class="; "trait"; " href=";
      "ndarray/trait.DataOwned.html"; " title="; "trait ndarray::DataOwned";
      ">DataOwned</a>&lt;Elem = <a class="; "primitive"; " href=";
      "https://doc.rust-lang.org/nightly/std/primitive.bool.html"; ">bool</a>&gt; + <a class=";
      "trait"; " href="; "ndarray/trait.DataMut.html"; " title="; "trait ndarray::DataMut";
      ">DataMut</a>,<br>&nbsp;&nbsp;&nbsp;&nbsp;D: <a class="; "trait"; " href=";
      "ndarray/trait.Dimension.html"; " title="; "trait ndarray::Dimension";
      ">Dimension</a>,&nbsp;</span>"];
  html [
      "impl&lt;'a, S, D&gt; <a class="; "trait"; " href=";
      "https://doc.rust-lang.org/nightly/core/ops/trait.BitXor.html"; " title=";
      "trait core::ops::BitXor"; ">BitXor</a>&lt;&amp;'a <a class="; "struct"; " href=";
      "ndarray/struct.ArrayBase.html"; " title="; "struct ndarray::ArrayBase";
      ">ArrayBase</a>&lt;S, D&gt;&gt; for <a class="; "primitive"; " href=";
      "https://doc.rust-lang.org/nightly/std/primitive.bool.html"; ">bool</a> <span class=";
      "where fmt-newline"; ">where<br>&nbsp;&nbsp;&nbsp;&nbsp;S: <a class="; "trait"; " href=";
      "ndarray/trait.Data.html"; " title="; "trait ndarray::Data";
      ">Data</a>&lt;Elem = <a class="; "primitive"; " href=";
      "https://doc.rust-lang.org/nightly/std/primitive.bool.html";
      ">bool</a>&gt;,<br>&nbsp;&nbsp;&nbsp;&nbsp;D: <a class="; "trait"; " href=";
      "ndarray/trait.Dimension.html"; " title="; "trait ndarray::Dimension";
      ">Dimension</a>,&nbsp;</span>"]
].

Definition trait_BitXor_js (host : runtime) : js unit :=
  implementors ← new_object;
  assign implementors "itertools" trait_BitXor_itertools;;
  assign implementors "libc" trait_BitXor_libc;;
  assign implementors "ndarray" trait_BitXor_ndarray;;
  handoff host implementors.

Definition trait_BitXor_table : list (string * list string) :=
  [("itertools", trait_BitXor_itertools);
   ("libc", trait_BitXor_libc);
   ("ndarray", trait_BitXor_ndarray)].

(** ** Observing a run *)

(** The events a run added to the trace of the state it started in. *)
Definition since {A} (s : state) (r : completion A) : list event :=
  drop (length (st_trace s)) (st_trace (final r)).

(** The calls of a trace: callee, receiver, arguments, and the store the
    callee started in. *)
Definition calls_of (t : list event) : list (fid * value * list value * store) :=
  omap (λ e, match e with ECall f this args σ => Some (f, this, args, σ) | _ => None end) t.

(** The writes of a trace: global name and value written. *)
Definition writes_of (t : list event) : list (string * value) :=
  omap (λ e, match e with ESet name v => Some (name, v) | _ => None end) t.

(** The reads of a trace. *)
Definition reads_of (t : list event) : list string :=
  omap (λ e, match e with EGet name => Some name | _ => None end) t.

(** Reading a table back from the heap, as a consumer would: the keys of
    the object in their order, each with the strings of its array. *)
Definition read_string (v : value) : option string :=
  match v with VString s => Some s | _ => None end.

Definition read_array (h : list object) (v : value) : option (list string) :=
  match v with
  | VObject l =>
      match h !! l with
      | Some (OArray elems) => mapM read_string elems
      | _ => None
      end
  | _ => None
  end.

Definition read_table (σ : store) (v : value) : option (list (string * list string)) :=
  match v with
  | VObject l =>
      match heap σ !! l with
      | Some (OPlain props) => mapM (λ p, pair p.1 <$> read_array (heap σ) p.2) props
      | _ => None
      end
  | _ => None
  end.

(** While a page builds its table: property [p] of the object at [l] is
    entry [e] when it has the key of [e] and its value is an array on the
    heap, other than the object itself, of the strings of [e]; the object
    is built up to [entries] when its properties are these entries, in
    order. *)
Definition holds_entry (h : list object) (l : loc)
    (p : string * value) (e : string * list string) : Prop :=
  p.1 = e.1 ∧ ∃ la, p.2 = VObject la ∧ la ≠ l ∧ h !! la = Some (OArray (VString <$> e.2)).

Definition built (h : list object) (l : loc) (entries : list (string * list string)) : Prop :=
  ∃ ps, h !! l = Some (OPlain ps) ∧ Forall2 (holds_entry h l) ps entries.

(** The two effects a run of the dispatch on table [T] can have: the table
    was handed to a function of the viewer, the table was put in the
    pending slot. *)
Definition delivered (T : value) (new : list event) : Prop :=
  ∃ f σ, calls_of new = [(f, VWindow, [T], σ)].
Definition stored (T : value) (new : list event) : Prop :=
  writes_of new = [(pending_implementors, T)].

(** A call without the store it started in. *)
Definition call_shape (c : fid * value * list value * store) : fid * value * list value :=
  c.1.

(** The two globals of the protocol, as one view of a store. *)
Definition protocol_globals (σ : store) : value * value :=
  (global σ register_implementors, global σ pending_implementors).

(** ** Sample runtimes and pages *)

(** A viewer whose function 0 keeps the table it is given under
    [window.registered]; every other function returns at once. *)
Definition viewer : runtime := λ f this args σ,
  match f, args with
  | 0, [t] => HReturn VUndefined (Store (heap σ) (<["registered" := t]> (window σ)))
  | _, _ => HReturn VUndefined σ
  end.

(** A viewer whose function 0 copies [window.other] into the pending
    slot. *)
Definition nosy_viewer : runtime := λ f this args σ,
  HReturn VUndefined
    (Store (heap σ) (<[pending_implementors := global σ "other"]> (window σ))).

(** A viewer whose functions all throw. *)
Definition faulty_viewer : runtime := λ f this args σ, HThrow (VString "boom") σ.

(** Two small tables on the heap, for runs of the bare dispatch. *)
Definition two_tables : list object :=
  [OPlain [("a", VObject 1)]; OArray [VString "x"; VString "y"];
   OPlain [("b", VObject 3)]; OArray []].

(** The page before the viewer has loaded, once it has, and a page on which
    some other script left [true] under the viewer's name. *)
Definition early_page : state := State (Store two_tables ∅) [].
Definition ready_page : state :=
  State (Store two_tables {[register_implementors := VFunction 0]}) [].
Definition odd_page : state :=
  State (Store two_tables {[register_implementors := VBoolean true]}) [].

(** A page with [0] under the viewer's name, and a loaded page with another
    heap, another global and a past. *)
Definition zero_page : state :=
  State (Store two_tables {[register_implementors := VNumber (S754_zero false)]}) [].
Definition busy_page : state :=
  State (Store [] (<["other" := VNull]> {[register_implementors := VFunction 0]}))
        [EGet "other"].

(** ** The heap a page leaves *)

(** The object and the arrays the assignments of a page allocate, for a
    table object at [l]: the array of the [i]-th crate is the [i]-th
    allocation after the object. *)
Definition table_props (l : loc) (entries : list (string * list string))
  : list (string * value) :=
  imap (λ i e, (e.1, VObject (S l + i))) entries.

Definition table_arrays (entries : list (string * list string)) : list object :=
  (λ e, OArray (VString <$> e.2)) <$> entries.

(** * Properties *)

(** ** Traces and views *)

Lemma since_app {A} (s : state) (r : completion A) (new : list event) :
  st_trace (final r) = st_trace s ++ new → since s r = new.
Proof. intros E. unfold since. rewrite E. apply drop_app_length. Qed.

Lemma global_insert_eq (h : list object) (w : gmap string value) name v :
  global (Store h (<[name := v]> w)) name = v.
Proof. unfold global; simpl. by rewrite lookup_insert_eq. Qed.

Lemma global_insert_ne (h : list object) (w : gmap string value) name name' v :
  name ≠ name' →
  global (Store h (<[name := v]> w)) name' = global (Store h w) name'.
Proof. intros Hne. unfold global; simpl. by rewrite lookup_insert_ne. Qed.

Lemma globals_differ : pending_implementors ≠ register_implementors.
Proof. discriminate. Qed.

Lemma callable_truthy v : IsCallable v = true → ToBoolean v = true.
Proof. by destruct v. Qed.

Lemma callable_function v : IsCallable v = true → ∃ f, v = VFunction f.
Proof. destruct v; try discriminate. eauto. Qed.

Lemma read_table_heap (σ σ' : store) (v : value) :
  heap σ = heap σ' → read_table σ v = read_table σ' v.
Proof. intros E. unfold read_table. by rewrite E. Qed.

(** ** The three ways the dispatch can go *)

Section Dispatch.

Variable host : runtime.
Implicit Types (T : value) (s : state).

(** A falsy global: the table is stored, nothing is called. *)
Lemma handoff_falsy T s :
  ToBoolean (global (st_store s) register_implementors) = false →
  handoff host T s =
    Normal () (State (Store (heap (st_store s))
                            (<[pending_implementors := T]> (window (st_store s))))
                     (st_trace s ++ [EGet register_implementors; ESet pending_implementors T])).
Proof.
  intros Hc. unfold handoff, mbind, js_bind, get_global. simpl. rewrite Hc.
  unfold set_global, log. simpl. by rewrite <- app_assoc.
Qed.

(** A function: it is called, and the run ends as the call does. *)
Lemma handoff_function T s f :
  global (st_store s) register_implementors = VFunction f →
  handoff host T s =
    let t := st_trace s ++ [EGet register_implementors; EGet register_implementors;
                            ECall f VWindow [T] (st_store s)] in
    match host f VWindow [T] (st_store s) with
    | HReturn _ σ' => Normal () (State σ' t)
    | HThrow v σ' => Abrupt (Thrown v) (State σ' t)
    end.
Proof.
  intros Hc. unfold handoff, mbind, js_bind, get_global. simpl. rewrite Hc. simpl.
  unfold call, log. simpl. rewrite Hc. rewrite <- !app_assoc. simpl.
  by destruct (host f VWindow [T] (st_store s)).
Qed.

(** A truthy value that is no function: the call throws before anything
    is invoked or written. *)
Lemma handoff_not_callable T s :
  ToBoolean (global (st_store s) register_implementors) = true →
  IsCallable (global (st_store s) register_implementors) = false →
  handoff host T s =
    Abrupt TypeError
      (State (st_store s)
             (st_trace s ++ [EGet register_implementors; EGet register_implementors])).
Proof.
  intros Ht Hc. unfold handoff, mbind, js_bind, get_global. simpl. rewrite Ht. simpl.
  unfold call, log. simpl. rewrite <- app_assoc. simpl.
  by destruct (global (st_store s) register_implementors).
Qed.

(** Every value of the global falls under one of the three. *)
Lemma dispatch_cases (c : value) :
  ToBoolean c = false
  ∨ (∃ f, c = VFunction f)
  ∨ (ToBoolean c = true ∧ IsCallable c = false).
Proof.
  destruct (ToBoolean c) eqn:Ht; [right | by left].
  destruct (IsCallable c) eqn:Hc; [left; by apply callable_function | by right].
Qed.

(** The events of each. *)
Lemma since_handoff_falsy T s :
  ToBoolean (global (st_store s) register_implementors) = false →
  since s (handoff host T s)
  = [EGet register_implementors; ESet pending_implementors T].
Proof. intros Hc. apply since_app. by rewrite handoff_falsy. Qed.

Lemma since_handoff_function T s f :
  global (st_store s) register_implementors = VFunction f →
  since s (handoff host T s)
  = [EGet register_implementors; EGet register_implementors;
     ECall f VWindow [T] (st_store s)].
Proof.
  intros Hc. apply since_app. rewrite (handoff_function T s f Hc). cbv zeta.
  by destruct (host f VWindow [T] (st_store s)).
Qed.

Lemma since_handoff_not_callable T s :
  ToBoolean (global (st_store s) register_implementors) = true →
  IsCallable (global (st_store s) register_implementors) = false →
  since s (handoff host T s)
  = [EGet register_implementors; EGet register_implementors].
Proof. intros Ht Hc. apply since_app. by rewrite handoff_not_callable. Qed.

(** The store and the outcome of a run that called a function are the
    function's. *)
Lemma store_handoff_function T s f :
  global (st_store s) register_implementors = VFunction f →
  st_store (final (handoff host T s)) = host_store (host f VWindow [T] (st_store s)).
Proof.
  intros Hc. rewrite (handoff_function T s f Hc). cbv zeta.
  by destruct (host f VWindow [T] (st_store s)).
Qed.

Lemma outcome_handoff_function T s f :
  global (st_store s) register_implementors = VFunction f →
  outcome (handoff host T s)
  = match host f VWindow [T] (st_store s) with
    | HReturn _ _ => None
    | HThrow v _ => Some (Thrown v)
    end.
Proof.
  intros Hc. rewrite (handoff_function T s f Hc). cbv zeta.
  by destruct (host f VWindow [T] (st_store s)).
Qed.

End Dispatch.

(** ** Delivery and storage *)

(** C1: when [window.register_implementors] holds a function at the time
    the dispatch runs, the dispatch calls that function exactly once, with
    the table as its only argument, in the store the dispatch started in;
    the dispatch itself writes no global, so the pending slot is whatever
    the function leaves: unchanged if the function does not touch it. *)
Theorem handoff_present_calls_once (host : runtime) (T : value) (s : state) (f : fid) :
  global (st_store s) register_implementors = VFunction f →
  let r := handoff host T s in
  let after := host_store (host f VWindow [T] (st_store s)) in
  calls_of (since s r) = [(f, VWindow, [T], st_store s)]
  ∧ writes_of (since s r) = []
  ∧ st_store (final r) = after
  ∧ (global after pending_implementors = global (st_store s) pending_implementors →
     global (st_store (final r)) pending_implementors
     = global (st_store s) pending_implementors).
Proof.
  intros Hf r after. subst r after.
  rewrite (since_handoff_function host T s f Hf), (store_handoff_function host T s f Hf).
  by repeat split.
Qed.

Lemma handoff_present_calls_once_witness :
  global (st_store ready_page) register_implementors = VFunction 0
  ∧ calls_of (since ready_page (handoff viewer (VObject 0) ready_page))
    = [(0, VWindow, [VObject 0], st_store ready_page)]
  ∧ global (st_store (final (handoff viewer (VObject 0) ready_page))) pending_implementors
    = VUndefined.
Proof.
  split; [reflexivity|].
  pose proof (handoff_present_calls_once viewer (VObject 0) ready_page 0 eq_refl) as H.
  cbv zeta in H. destruct H as (Hc & _ & _ & Hp).
  split; [exact Hc|]. rewrite Hp; reflexivity.
Defined.

(** C2: when [window.register_implementors] is absent (or holds any other
    falsy value), the dispatch completes with the pending slot equal to the
    table, having called nothing; its one write is that of the slot, and
    the heap and every other global are as before. *)
Theorem handoff_absent_stores (host : runtime) (T : value) (s : state) :
  ToBoolean (global (st_store s) register_implementors) = false →
  let r := handoff host T s in
  outcome r = None
  ∧ global (st_store (final r)) pending_implementors = T
  ∧ calls_of (since s r) = []
  ∧ writes_of (since s r) = [(pending_implementors, T)]
  ∧ heap (st_store (final r)) = heap (st_store s)
  ∧ (∀ name, name ≠ pending_implementors →
       global (st_store (final r)) name = global (st_store s) name).
Proof.
  intros Hc r. subst r. rewrite (since_handoff_falsy host T s Hc).
  rewrite (handoff_falsy host T s Hc). simpl. repeat split.
  - apply global_insert_eq.
  - intros name Hne. by apply global_insert_ne.
Qed.

Lemma handoff_absent_stores_witness :
  window (st_store early_page) !! register_implementors = None
  ∧ global (st_store (final (handoff viewer (VObject 0) early_page))) pending_implementors
    = VObject 0.
Proof.
  split; [reflexivity|].
  exact (proj1 (proj2 (handoff_absent_stores viewer (VObject 0) early_page eq_refl))).
Defined.

(** C3 as stated fails: on a page where [window.register_implementors]
    holds [true], the call throws a TypeError; the table is neither
    delivered nor stored. *)
Lemma handoff_neither_effect :
  let r := handoff viewer (VObject 0) odd_page in
  outcome r = Some TypeError
  ∧ ¬ delivered (VObject 0) (since odd_page r)
  ∧ ¬ stored (VObject 0) (since odd_page r).
Proof.
  cbv zeta.
  rewrite (since_handoff_not_callable viewer (VObject 0) odd_page eq_refl eq_refl).
  rewrite (handoff_not_callable viewer (VObject 0) odd_page eq_refl eq_refl).
  split; [reflexivity|]. split.
  - intros (f & σ & Hc). discriminate Hc.
  - intros Hw. discriminate Hw.
Qed.

(** C3, amended: a run never has both effects, not even a call together
    with a write of any other kind; it has exactly one of them when the
    global is falsy (storage) or a function (delivery), and neither when
    the global is truthy and not callable, where the run ends in a
    TypeError. *)
Theorem handoff_one_effect_at_most (host : runtime) (T : value) (s : state) :
  let c := global (st_store s) register_implementors in
  let r := handoff host T s in
  let new := since s r in
  (calls_of new = [] ∨ writes_of new = [])
  ∧ (ToBoolean c = false ∧ stored T new ∧ ¬ delivered T new
     ∨ IsCallable c = true ∧ delivered T new ∧ ¬ stored T new
     ∨ (ToBoolean c = true ∧ IsCallable c = false)
       ∧ outcome r = Some TypeError ∧ ¬ delivered T new ∧ ¬ stored T new).
Proof.
  cbv zeta. unfold delivered, stored.
  destruct (dispatch_cases (global (st_store s) register_implementors))
    as [Hc | [[f Hc] | [Ht Hc]]].
  - rewrite (since_handoff_falsy host T s Hc). simpl.
    split; [by left|]. left. split; [done|]. split; [done|].
    intros (f & σ & H). discriminate H.
  - rewrite (since_handoff_function host T s f Hc). simpl.
    split; [by right|]. right; left. rewrite Hc.
    split; [done|]. split; [by exists f, (st_store s) | done].
  - rewrite (since_handoff_not_callable host T s Ht Hc).
    rewrite (handoff_not_callable host T s Ht Hc). simpl.
    split; [by left|]. right; right. split; [done|]. split; [done|].
    split; [|done]. intros (f & σ & H). discriminate H.
Qed.

(** C4: two runs of the dispatch in a row, on tables [T1] then [T2], on a
    page where the registration global is falsy: both complete, nothing is
    called, and the pending slot ends up holding [T2] alone.  The globals
    are those of the start with the slot set to [T2], the heap is
    untouched, so what is read through the slot is the table [T2] as it
    was, with nothing of [T1] in it. *)
Theorem handoff_twice_overwrites (host : runtime) (T1 T2 : value) (s : state) :
  ToBoolean (global (st_store s) register_implementors) = false →
  let r := (handoff host T1;; handoff host T2) s in
  outcome r = None
  ∧ global (st_store (final r)) pending_implementors = T2
  ∧ window (st_store (final r)) = <[pending_implementors := T2]> (window (st_store s))
  ∧ heap (st_store (final r)) = heap (st_store s)
  ∧ calls_of (since s r) = []
  ∧ read_table (st_store (final r)) (global (st_store (final r)) pending_implementors)
    = read_table (st_store s) T2.
Proof.
  intros Hc r. subst r. unfold mbind, js_bind.
  rewrite (handoff_falsy host T1 s Hc).
  set (s1 := State _ _).
  assert (ToBoolean (global (st_store s1) register_implementors) = false) as Hc1.
  { subst s1. simpl. rewrite global_insert_ne by apply globals_differ.
    by destruct s as [[h w] t]. }
  rewrite (handoff_falsy host T2 s1 Hc1). subst s1. simpl.
  rewrite insert_insert_eq, global_insert_eq.
  split; [done|]. split; [done|]. split; [done|]. split; [done|]. split.
  - erewrite since_app; [|simpl; by rewrite <- app_assoc]. done.
  - by apply read_table_heap.
Qed.

Lemma handoff_twice_overwrites_witness :
  let r := (handoff viewer (VObject 0);; handoff viewer (VObject 2)) early_page in
  global (st_store early_page) register_implementors = VUndefined
  ∧ global (st_store (final r)) pending_implementors = VObject 2
  ∧ read_table (st_store (final r)) (global (st_store (final r)) pending_implementors)
    = Some [("b", [])].
Proof.
  cbv zeta. split; [reflexivity|].
  pose proof (handoff_twice_overwrites viewer (VObject 0) (VObject 2) early_page eq_refl)
    as H.
  cbv zeta in H. destruct H as (_ & Hp & _ & _ & _ & Ht).
  split; [exact Hp|]. rewrite Ht. reflexivity.
Defined.

(** ** Failure *)

(** C6 as stated fails: with [true] under [window.register_implementors]
    the dispatch ends in a TypeError. *)
Lemma handoff_type_error :
  handoff viewer (VObject 0) odd_page
  = Abrupt TypeError
      (State (st_store odd_page) [EGet register_implementors; EGet register_implementors]).
Proof. exact (handoff_not_callable viewer (VObject 0) odd_page eq_refl eq_refl). Qed.

(** C6, amended: the dispatch looks at nothing in the table, and it
    completes normally exactly when the registration global is falsy or is
    a function that returns.  Whatever the table, a truthy global that is
    not a function ends the run in a TypeError, and what a registration
    function throws is thrown on. *)
Theorem handoff_completes (host : runtime) (T : value) (s : state) :
  let c := global (st_store s) register_implementors in
  let r := handoff host T s in
  (outcome r = None ↔
     ToBoolean c = false
     ∨ ∃ f v σ', c = VFunction f ∧ host f VWindow [T] (st_store s) = HReturn v σ')
  ∧ (ToBoolean c = true → IsCallable c = false → outcome r = Some TypeError)
  ∧ (∀ f v σ', c = VFunction f → host f VWindow [T] (st_store s) = HThrow v σ' →
       outcome r = Some (Thrown v)).
Proof.
  cbv zeta.
  destruct (dispatch_cases (global (st_store s) register_implementors))
    as [Hc | [[f Hc] | [Ht Hc]]].
  - rewrite (handoff_falsy host T s Hc). simpl. split; [|split].
    + split; [by left | done].
    + intros Ht. congruence.
    + intros f v σ' Hf. rewrite Hf in Hc. discriminate Hc.
  - rewrite (outcome_handoff_function host T s f Hc), Hc. split; [|split].
    + split.
      * intros Ho. right.
        destruct (host f VWindow [T] (st_store s)) as [v σ'|v σ'] eqn:Hh;
          [by exists f, v, σ' | discriminate Ho].
      * intros [Hfalse | (f' & v & σ' & Hf & Hh)]; [discriminate Hfalse|].
        injection Hf as <-. by rewrite Hh.
    + discriminate.
    + intros f' v σ' Hf Hh. injection Hf as <-. by rewrite Hh.
  - rewrite (handoff_not_callable host T s Ht Hc). simpl. split; [|split].
    + split; [discriminate|].
      intros [Hfalse | (f & v & σ' & Hf & _)]; [congruence|].
      rewrite Hf in Hc. discriminate Hc.
    + done.
    + intros f v σ' Hf. rewrite Hf in Hc. discriminate Hc.
Qed.

Lemma handoff_completes_witness :
  outcome (handoff viewer (VObject 0) early_page) = None
  ∧ outcome (handoff viewer (VObject 0) ready_page) = None
  ∧ outcome (handoff faulty_viewer (VObject 0) ready_page) = Some (Thrown (VString "boom")).
Proof.
  split; [|split].
  - apply (proj1 (handoff_completes viewer (VObject 0) early_page)). by left.
  - apply (proj1 (handoff_completes viewer (VObject 0) ready_page)). right.
    by exists 0, VUndefined,
      (Store two_tables
         (<["registered" := VObject 0]> {[register_implementors := VFunction 0]})).
  - by apply (proj2 (proj2 (handoff_completes faulty_viewer (VObject 0) ready_page))
               0 (VString "boom") (st_store ready_page)).
Defined.

(** ** The test and the frame *)

(** C8: the branch is chosen by ToBoolean of [window.register_implementors]
    and by nothing else.  The table is stored exactly when the global is
    falsy; exactly when it is truthy the run reads the global a second time,
    to call it, and writes nothing.  A truthy value is called when it is a
    function; when it is not, the attempt ends in a TypeError with nothing
    called.  [undefined], [null], [false], [0] and the empty string are
    falsy; [true], [1], a non-empty string, an object and the global object
    are truthy and not callable. *)
Theorem dispatch_by_truthiness (host : runtime) (T : value) (s : state) :
  let c := global (st_store s) register_implementors in
  let r := handoff host T s in
  let new := since s r in
  (stored T new ↔ ToBoolean c = false)
  ∧ (reads_of new = [register_implementors; register_implementors] ↔ ToBoolean c = true)
  ∧ (ToBoolean c = true → writes_of new = [])
  ∧ (IsCallable c = true → delivered T new)
  ∧ (ToBoolean c = true → IsCallable c = false →
       calls_of new = [] ∧ outcome r = Some TypeError)
  ∧ Forall (λ v, ToBoolean v = false)
      [VUndefined; VNull; VBoolean false; VNumber (S754_zero false); VString ""]
  ∧ Forall (λ v, ToBoolean v = true ∧ IsCallable v = false)
      [VBoolean true; VNumber (S754_finite false 4503599627370496 (-52)); VString "x";
       VObject 0; VWindow].
Proof.
  cbv zeta. unfold stored, delivered.
  destruct (dispatch_cases (global (st_store s) register_implementors))
    as [Hc | [[f Hc] | [Ht Hc]]].
  - rewrite (since_handoff_falsy host T s Hc), Hc. simpl.
    repeat split; try done; try (repeat constructor; done).
    intros Hcall. apply callable_truthy in Hcall. congruence.
  - rewrite (since_handoff_function host T s f Hc), Hc. simpl.
    repeat split; try done; try (repeat constructor; done).
    by exists f, (st_store s).
  - rewrite (since_handoff_not_callable host T s Ht Hc),
      (handoff_not_callable host T s Ht Hc), Ht, Hc. simpl.
    repeat split; try done; repeat constructor; done.
Qed.

Lemma dispatch_by_truthiness_witness :
  stored (VObject 0) (since zero_page (handoff viewer (VObject 0) zero_page))
  ∧ reads_of (since odd_page (handoff viewer (VObject 0) odd_page))
    = [register_implementors; register_implementors].
Proof.
  split.
  - by apply (proj1 (dispatch_by_truthiness viewer (VObject 0) zero_page)).
  - by apply (proj1 (proj2 (dispatch_by_truthiness viewer (VObject 0) odd_page))).
Defined.

(** C9: the dispatch reads [window.register_implementors] and never writes
    it.  Every write of a run is the write of the table to
    [window.pending_implementors], and happens only when the global is
    falsy.  A function that is called starts in the store the run started
    in; a run that calls nothing leaves the heap and every global but the
    pending slot as they were, and leaves the whole store as it was when the
    global is truthy. *)
Theorem handoff_writes_only_pending (host : runtime) (T : value) (s : state) :
  let c := global (st_store s) register_implementors in
  let r := handoff host T s in
  let new := since s r in
  (∀ name v, (name, v) ∈ writes_of new →
     name = pending_implementors ∧ v = T ∧ ToBoolean c = false)
  ∧ register_implementors ∈ reads_of new
  ∧ (∀ call, call ∈ calls_of new → call.2 = st_store s)
  ∧ (calls_of new = [] →
       heap (st_store (final r)) = heap (st_store s)
       ∧ ∀ name, name ≠ pending_implementors →
           window (st_store (final r)) !! name = window (st_store s) !! name)
  ∧ (calls_of new = [] → ToBoolean c = true → st_store (final r) = st_store s).
Proof.
  cbv zeta.
  destruct (dispatch_cases (global (st_store s) register_implementors))
    as [Hc | [[f Hc] | [Ht Hc]]].
  - rewrite (since_handoff_falsy host T s Hc), (handoff_falsy host T s Hc). simpl.
    split; [|split; [|split; [|split]]].
    + intros name v Hin. apply list_elem_of_singleton in Hin. by injection Hin as -> ->.
    + apply list_elem_of_here.
    + intros call Hin. by apply elem_of_nil in Hin.
    + intros _. split; [done|]. intros name Hne. by rewrite lookup_insert_ne.
    + intros _ Ht. congruence.
  - rewrite (since_handoff_function host T s f Hc). simpl.
    split; [|split; [|split; [|split]]].
    + intros name v Hin. by apply elem_of_nil in Hin.
    + apply list_elem_of_here.
    + intros call Hin. apply list_elem_of_singleton in Hin. by subst call.
    + discriminate.
    + discriminate.
  - rewrite (since_handoff_not_callable host T s Ht Hc),
      (handoff_not_callable host T s Ht Hc). simpl.
    split; [|split; [|split; [|split]]].
    + intros name v Hin. by apply elem_of_nil in Hin.
    + apply list_elem_of_here.
    + intros call Hin. by apply elem_of_nil in Hin.
    + done.
    + done.
Qed.

(** C10 as stated fails: two pages with the same registration function and
    the same (empty) pending slot, one of which has another global; a
    registration function that copies that global into the slot leaves the
    two pages with different slots. *)
Lemma handoff_final_states_differ :
  protocol_globals (st_store ready_page) = protocol_globals (st_store busy_page)
  ∧ protocol_globals (st_store (final (handoff nosy_viewer (VObject 0) ready_page)))
    ≠ protocol_globals (st_store (final (handoff nosy_viewer (VObject 0) busy_page))).
Proof.
  split; [reflexivity|].
  rewrite (store_handoff_function nosy_viewer (VObject 0) ready_page 0 eq_refl),
    (store_handoff_function nosy_viewer (VObject 0) busy_page 0 eq_refl).
  vm_compute. discriminate.
Qed.

(** C10, amended: two runs of the dispatch on the same table, from stores
    that agree on [window.register_implementors] and
    [window.pending_implementors], take the same branch: they make the same
    reads and the same writes and call the same function with the same
    receiver and argument, in stores that agree on the two globals.  When
    nothing is called they end the same way, in stores that agree on the two
    globals.  When a function is called each run ends as its own call does,
    in the store that call leaves, which may depend on the rest of the
    page. *)
Theorem handoff_deterministic (host : runtime) (T : value) (s1 s2 : state) :
  protocol_globals (st_store s1) = protocol_globals (st_store s2) →
  let r1 := handoff host T s1 in
  let r2 := handoff host T s2 in
  reads_of (since s1 r1) = reads_of (since s2 r2)
  ∧ writes_of (since s1 r1) = writes_of (since s2 r2)
  ∧ call_shape <$> calls_of (since s1 r1) = call_shape <$> calls_of (since s2 r2)
  ∧ Forall2 (λ c1 c2, protocol_globals c1.2 = protocol_globals c2.2)
      (calls_of (since s1 r1)) (calls_of (since s2 r2))
  ∧ (calls_of (since s1 r1) = [] →
       outcome r1 = outcome r2
       ∧ protocol_globals (st_store (final r1)) = protocol_globals (st_store (final r2)))
  ∧ (∀ f, global (st_store s1) register_implementors = VFunction f →
       outcome r1 = host_outcome (host f VWindow [T] (st_store s1))
       ∧ st_store (final r1) = host_store (host f VWindow [T] (st_store s1))
       ∧ outcome r2 = host_outcome (host f VWindow [T] (st_store s2))
       ∧ st_store (final r2) = host_store (host f VWindow [T] (st_store s2))).
Proof.
  intros Hg. cbv zeta.
  assert (global (st_store s1) register_implementors
          = global (st_store s2) register_implementors) as Hreg
    by (by injection Hg).
  destruct (dispatch_cases (global (st_store s1) register_implementors))
    as [Hc | [[f Hc] | [Ht Hc]]].
  - assert (Hc2 := Hc). rewrite Hreg in Hc2.
    rewrite (since_handoff_falsy host T s1 Hc), (since_handoff_falsy host T s2 Hc2),
      (handoff_falsy host T s1 Hc), (handoff_falsy host T s2 Hc2). simpl.
    split; [done|]. split; [done|]. split; [done|]. split; [constructor|]. split.
    + intros _. split; [done|]. unfold protocol_globals.
      rewrite !global_insert_eq, !(global_insert_ne _ _ _ _ _ globals_differ).
      f_equal. by destruct s1 as [[h1 w1] t1], s2 as [[h2 w2] t2].
    + intros f Hf. rewrite Hf in Hc. discriminate Hc.
  - assert (Hc2 := Hc). rewrite Hreg in Hc2.
    rewrite (since_handoff_function host T s1 f Hc),
      (since_handoff_function host T s2 f Hc2),
      (outcome_handoff_function host T s1 f Hc),
      (outcome_handoff_function host T s2 f Hc2),
      (store_handoff_function host T s1 f Hc),
      (store_handoff_function host T s2 f Hc2). simpl.
    split; [done|]. split; [done|]. split; [done|].
    split; [by repeat constructor|]. split; [discriminate|].
    intros f' Hf. rewrite Hf in Hc. injection Hc as ->. done.
  - assert (Ht2 := Ht). assert (Hc2 := Hc). rewrite Hreg in Ht2, Hc2.
    rewrite (since_handoff_not_callable host T s1 Ht Hc),
      (since_handoff_not_callable host T s2 Ht2 Hc2),
      (handoff_not_callable host T s1 Ht Hc),
      (handoff_not_callable host T s2 Ht2 Hc2). simpl.
    split; [done|]. split; [done|]. split; [done|]. split; [constructor|].
    split; [done|]. intros f Hf. rewrite Hf in Hc. discriminate Hc.
Qed.

Lemma handoff_deterministic_witness :
  protocol_globals (st_store ready_page) = protocol_globals (st_store busy_page)
  ∧ call_shape <$> calls_of (since ready_page (handoff viewer (VObject 0) ready_page))
    = call_shape <$> calls_of (since busy_page (handoff viewer (VObject 0) busy_page)).
Proof.
  split; [reflexivity|].
  exact (proj1 (proj2 (proj2
    (handoff_deterministic viewer (VObject 0) ready_page busy_page eq_refl)))).
Defined.

(** ** Building the table *)

Lemma alist_set_fresh (k : string) (v : value) (ps : list (string * value)) :
  k ∉ ps.*1 → alist_set k v ps = ps ++ [(k, v)].
Proof.
  induction ps as [|[k' v'] ps IH]; intros Hk; simpl; [done|].
  simpl in Hk. apply not_elem_of_cons in Hk as [Hne Hk].
  destruct (decide (k = k')) as [->|_]; [done|]. by rewrite IH.
Qed.

Lemma ordinary_key_spec (k : string) :
  ordinary_key k = true → k ≠ "__proto__" ∧ array_index k = None.
Proof.
  unfold ordinary_key. intros H. apply andb_true_iff in H as [Hp Hi]. split.
  - intros ->. discriminate Hp.
  - by destruct (array_index k).
Qed.

Lemma own_set_ordinary (k : string) (v : value) (ps : list (string * value)) :
  ordinary_key k = true → own_set k v ps = alist_set k v ps.
Proof. intros [_ Hi]%ordinary_key_spec. unfold own_set. by rewrite Hi. Qed.

(** The assignment of an ordinary key to a plain object. *)
Lemma set_prop_ordinary (l : loc) (k : string) (v : value) (s : state) ps :
  ordinary_key k = true →
  heap (st_store s) !! l = Some (OPlain ps) →
  set_prop (VObject l) k v s
  = Normal () (State (Store (<[l := OPlain (alist_set k v ps)]> (heap (st_store s)))
                            (window (st_store s)))
                     (st_trace s)).
Proof.
  intros Hk Hl. unfold set_prop. rewrite Hl.
  destruct (ordinary_key_spec k Hk) as [Hp _].
  destruct (decide (k = "__proto__")); [done|]. by rewrite own_set_ordinary.
Qed.

Lemma read_strings_inv (strs : list string) :
  mapM read_string (VString <$> strs) = Some strs.
Proof. apply mapM_Some. induction strs; simpl; by constructor. Qed.

Lemma holds_entry_read (h : list object) (l : loc) p e :
  holds_entry h l p e → pair p.1 <$> read_array h p.2 = Some e.
Proof.
  intros [Hk (la & Hv & _ & Ha)]. rewrite Hv. unfold read_array. rewrite Ha.
  rewrite read_strings_inv. simpl. rewrite Hk. by destruct e.
Qed.

(** A built object reads back as its entries. *)
Lemma built_read_table (σ : store) (l : loc) entries :
  built (heap σ) l entries → read_table σ (VObject l) = Some entries.
Proof.
  intros (ps & Hl & Hall). unfold read_table. rewrite Hl.
  apply mapM_Some. eapply Forall2_impl; [exact Hall|].
  intros p e Hpe. exact (holds_entry_read (heap σ) l p e Hpe).
Qed.

Lemma built_keys (h : list object) (l : loc) ps entries :
  Forall2 (holds_entry h l) ps entries → ps.*1 = entries.*1.
Proof.
  induction 1 as [|p e ps entries [Hk _] _ IH]; [done|].
  rewrite !fmap_cons. by f_equal.
Qed.

(** What is held stays held when an array is allocated and the object
    itself is updated. *)
Lemma holds_entry_grow (h : list object) (l : loc) (o a : object) p e :
  holds_entry h l p e → holds_entry (<[l := o]> (h ++ [a])) l p e.
Proof.
  intros [Hk (la & Hv & Hne & Ha)]. split; [done|]. exists la.
  split; [done|]. split; [done|].
  rewrite list_lookup_insert_ne by done. by apply lookup_app_l_Some.
Qed.

(** One assignment [implementors[key] = [...]] of a key not yet there
    extends a built object by one entry; it touches neither the globals nor
    the trace. *)
Lemma assign_built (l : loc) (key : string) (strs : list string) (s : state) done :
  built (heap (st_store s)) l done →
  ordinary_key key = true →
  key ∉ done.*1 →
  ∃ s', assign (VObject l) key strs s = Normal () s'
    ∧ built (heap (st_store s')) l (done ++ [(key, strs)])
    ∧ window (st_store s') = window (st_store s)
    ∧ st_trace s' = st_trace s.
Proof.
  intros (ps & Hl & Hall) Hord Hkey.
  unfold assign, mbind, js_bind, new_array. cbv beta iota zeta.
  assert (l < length (heap (st_store s))) as Hlt by (by eapply lookup_lt_Some).
  erewrite (set_prop_ordinary l key _ _ ps Hord)
    by (simpl; by apply lookup_app_l_Some).
  eexists. split; [reflexivity|]. simpl. split; [|done].
  exists (ps ++ [(key, VObject (length (heap (st_store s))))]). split.
  - rewrite alist_set_fresh by (by rewrite (built_keys _ _ _ _ Hall)).
    apply list_lookup_insert_eq. rewrite length_app. lia.
  - rewrite alist_set_fresh by (by rewrite (built_keys _ _ _ _ Hall)).
    apply Forall2_app.
    + eapply Forall2_impl; [exact Hall|]. intros p e. apply holds_entry_grow.
    + constructor; [|constructor]. split; [done|]. simpl.
      exists (length (heap (st_store s))). split; [done|]. split; [lia|].
      rewrite list_lookup_insert_ne by lia.
      rewrite lookup_app_r by lia. by rewrite Nat.sub_diag.
Qed.

(** The assignments of a page, keys all distinct, build the table entry by
    entry and then run what follows. *)
Lemma assign_all_built (l : loc) (rest : js unit) entries :
  ∀ done s,
    built (heap (st_store s)) l done →
    NoDup (done.*1 ++ entries.*1) →
    ordinary_keys entries →
    ∃ s', assign_all (VObject l) entries rest s = rest s'
      ∧ built (heap (st_store s')) l (done ++ entries)
      ∧ window (st_store s') = window (st_store s)
      ∧ st_trace s' = st_trace s.
Proof.
  induction entries as [|[key strs] entries IH]; intros done s Hb Hnd Hord; simpl.
  - exists s. by rewrite app_nil_r.
  - simpl in Hnd. apply NoDup_app in Hnd as (Hd & Hdisj & He).
    apply NoDup_cons in He as [Hkey He].
    apply Forall_cons in Hord as [Hord1 Hord].
    destruct (assign_built l key strs s done Hb Hord1) as (s1 & Hs1 & Hb1 & Hw1 & Ht1).
    { intros Hin. apply (Hdisj key Hin). apply list_elem_of_here. }
    destruct (IH (done ++ [(key, strs)]) s1 Hb1) as (s' & Hs' & Hb' & Hw' & Ht');
      [|exact Hord|].
    { rewrite fmap_app. simpl. apply NoDup_app. split; [|split; [|done]].
      - apply NoDup_app. split; [done|]. split; [|apply NoDup_singleton].
        intros k Hk Hk'. apply list_elem_of_singleton in Hk' as ->.
        apply (Hdisj key Hk). apply list_elem_of_here.
      - intros k Hk Hk'. apply elem_of_app in Hk as [Hk|Hk].
        + apply (Hdisj k Hk). by apply list_elem_of_further.
        + apply list_elem_of_singleton in Hk as ->. done. }
    exists s'. unfold mbind, js_bind at 1. rewrite Hs1.
    split; [exact Hs'|]. rewrite <- app_assoc in Hb'. split; [exact Hb'|].
    split; congruence.
Qed.

(** A page is its dispatch, run on the fresh object once it is built, with
    the globals and the trace the page started with. *)
Lemma page_built (host : runtime) (entries : list (string * list string)) (s : state) :
  NoDup entries.*1 →
  ordinary_keys entries →
  ∃ s', page host entries s = handoff host (VObject (length (heap (st_store s)))) s'
    ∧ built (heap (st_store s')) (length (heap (st_store s))) entries
    ∧ window (st_store s') = window (st_store s)
    ∧ st_trace s' = st_trace s.
Proof.
  intros Hnd Hord. unfold page, mbind, js_bind, new_object. simpl.
  set (l := length (heap (st_store s))).
  set (s0 := State (Store (heap (st_store s) ++ [OPlain []]) (window (st_store s)))
                   (st_trace s)).
  destruct (assign_all_built l (handoff host (VObject l)) entries [] s0)
    as (s' & Hrun & Hb & Hw & Ht); [|done|done|by exists s'].
  exists []. simpl. split; [|constructor].
  subst l. rewrite lookup_app_r by lia. by rewrite Nat.sub_diag.
Qed.

(** The two files are instances of the template. *)
Lemma trait_Error_js_page (host : runtime) :
  trait_Error_js host = page host trait_Error_table.
Proof. reflexivity. Qed.

Lemma trait_BitXor_js_page (host : runtime) :
  trait_BitXor_js host = page host trait_BitXor_table.
Proof. reflexivity. Qed.

Lemma trait_Error_keys : NoDup trait_Error_table.*1.
Proof. by apply (bool_decide_unpack _). Defined.

Lemma trait_BitXor_keys : NoDup trait_BitXor_table.*1.
Proof. by apply (bool_decide_unpack _). Defined.

Lemma trait_Error_ordinary : ordinary_keys trait_Error_table.
Proof. repeat constructor. Defined.

Lemma trait_BitXor_ordinary : ordinary_keys trait_BitXor_table.
Proof. repeat constructor. Defined.

Lemma since_same_trace {A} (s s' : state) (r : completion A) :
  st_trace s' = st_trace s → since s r = since s' r.
Proof. intros E. unfold since. by rewrite E. Qed.

Lemma global_same_window (σ σ' : store) (name : string) :
  window σ' = window σ → global σ' name = global σ name.
Proof. intros E. unfold global. by rewrite E. Qed.

(** ** What the consumer gets *)

(** C5: a page whose crates are all distinct, none of them [__proto__] or
    an array index, hands over its table as it was written.  When the table is stored, the value in the pending slot
    reads back, in the final store, as exactly the entries of the script:
    the same keys in the same order, each with the same strings in the same
    order, empty lists included.  When the table is delivered, the one call
    of the run has the table as its argument, and the table reads back the
    same way in the store the callee starts in. *)
Theorem page_delivers_table (host : runtime) (entries : list (string * list string))
    (s : state) :
  NoDup entries.*1 →
  ordinary_keys entries →
  let c := global (st_store s) register_implementors in
  let r := page host entries s in
  (ToBoolean c = false →
     read_table (st_store (final r)) (global (st_store (final r)) pending_implementors)
     = Some entries)
  ∧ (IsCallable c = true →
     ∃ f T σ, calls_of (since s r) = [(f, VWindow, [T], σ)]
              ∧ read_table σ T = Some entries).
Proof.
  intros Hnd Hord. cbv zeta.
  destruct (page_built host entries s Hnd Hord) as (s' & Hrun & Hb & Hw & Ht).
  rewrite Hrun, (since_same_trace s s' _ Ht),
    <- (global_same_window (st_store s) (st_store s') register_implementors Hw).
  split.
  - intros Hc. rewrite (handoff_falsy host _ s' Hc). simpl.
    rewrite global_insert_eq. by apply built_read_table.
  - intros Hc. apply callable_function in Hc as [f Hc].
    rewrite (since_handoff_function host _ s' f Hc). simpl.
    eexists f, _, (st_store s'). split; [reflexivity|]. by apply built_read_table.
Qed.

Lemma page_delivers_table_witness :
  let r := trait_Error_js viewer early_page in
  NoDup trait_Error_table.*1
  ∧ ordinary_keys trait_Error_table
  ∧ read_table (st_store (final r)) (global (st_store (final r)) pending_implementors)
    = Some trait_Error_table.
Proof.
  cbv zeta. split; [exact trait_Error_keys|]. split; [exact trait_Error_ordinary|].
  exact (proj1 (page_delivers_table viewer trait_Error_table early_page
                  trait_Error_keys trait_Error_ordinary)
               eq_refl).
Defined.

(** C7: a page whose crates are all distinct, none of them [__proto__] or
    an array index, runs its dispatch only once the table is complete.  The run of the page is the run of the dispatch
    on the table [T] from a state in which [T] already reads back as all the
    entries of the script, and which has the globals and the trace of the
    start: nothing was read, written or called while the table was built.
    The one call of the run, if any, is given [T] in that state's store, and
    the one write, if any, writes [T] over that state's heap. *)
Theorem page_builds_before_dispatch (host : runtime)
    (entries : list (string * list string)) (s : state) :
  NoDup entries.*1 →
  ordinary_keys entries →
  let r := page host entries s in
  ∃ T s',
    r = handoff host T s'
    ∧ read_table (st_store s') T = Some entries
    ∧ st_trace s' = st_trace s
    ∧ window (st_store s') = window (st_store s)
    ∧ (∀ call, call ∈ calls_of (since s r) → call.1.2 = [T] ∧ call.2 = st_store s')
    ∧ (∀ name v, (name, v) ∈ writes_of (since s r) →
         v = T ∧ heap (st_store (final r)) = heap (st_store s')).
Proof.
  intros Hnd Hord. cbv zeta.
  destruct (page_built host entries s Hnd Hord) as (s' & Hrun & Hb & Hw & Ht).
  exists (VObject (length (heap (st_store s)))), s'.
  split; [exact Hrun|]. split; [by apply built_read_table|].
  split; [exact Ht|]. split; [exact Hw|].
  rewrite Hrun, (since_same_trace s s' _ Ht).
  destruct (dispatch_cases (global (st_store s') register_implementors))
    as [Hc | [[f Hc] | [Htr Hc]]].
  - rewrite (since_handoff_falsy host _ s' Hc), (handoff_falsy host _ s' Hc). simpl.
    split.
    + intros call Hin. by apply elem_of_nil in Hin.
    + intros name v Hin. apply list_elem_of_singleton in Hin. by injection Hin as -> ->.
  - rewrite (since_handoff_function host _ s' f Hc). simpl. split.
    + intros call Hin. apply list_elem_of_singleton in Hin. by subst call.
    + intros name v Hin. by apply elem_of_nil in Hin.
  - rewrite (since_handoff_not_callable host _ s' Htr Hc). simpl. split.
    + intros call Hin. by apply elem_of_nil in Hin.
    + intros name v Hin. by apply elem_of_nil in Hin.
Qed.

Lemma page_builds_before_dispatch_witness :
  NoDup trait_BitXor_table.*1
  ∧ ordinary_keys trait_BitXor_table
  ∧ ∃ T s',
      trait_BitXor_js viewer ready_page = handoff viewer T s'
      ∧ read_table (st_store s') T = Some trait_BitXor_table
      ∧ st_trace s' = [].
Proof.
  split; [exact trait_BitXor_keys|]. split; [exact trait_BitXor_ordinary|].
  destruct (page_builds_before_dispatch viewer trait_BitXor_table ready_page
              trait_BitXor_keys trait_BitXor_ordinary) as (T & s' & Hrun & Hread & Ht & _).
  exists T, s'. split; [exact Hrun|]. split; [exact Hread | exact Ht].
Defined.

(** The two pages of the repository, from the page before the viewer has
    loaded and from the loaded page. *)
Example trait_Error_js_early :
  let r := trait_Error_js viewer early_page in
  outcome r = None
  ∧ since early_page r
    = [EGet register_implementors; ESet pending_implementors (VObject 4)]
  ∧ read_table (st_store (final r)) (VObject 4) = Some trait_Error_table.
Proof. vm_compute. done. Qed.

Example trait_BitXor_js_ready :
  let r := trait_BitXor_js viewer ready_page in
  outcome r = None
  ∧ call_shape <$> calls_of (since ready_page r) = [(0, VWindow, [VObject 4])]
  ∧ global (st_store (final r)) "registered" = VObject 4
  ∧ read_table (st_store (final r)) (VObject 4) = Some trait_BitXor_table.
Proof. vm_compute. done. Qed.

(** The keys the language treats apart, on a page that has them: the
    assignment to [__proto__] leaves no own property, and the array indices
    come first, in ascending order. *)
Example page_special_keys :
  let r := page viewer [("b", ["x"]); ("10", []); ("__proto__", ["y"]); ("2", ["z"]);
                        ("007", [])] early_page in
  outcome r = None
  ∧ read_table (st_store (final r)) (global (st_store (final r)) pending_implementors)
    = Some [("2", ["z"]); ("10", []); ("b", ["x"]); ("007", [])].
Proof. vm_compute. done. Qed.

(** ** The whole page, for any list of crates *)

(** The assignments of a page run to their end whatever the entries: the
    variable holds a plain object, on which every assignment succeeds. *)
Lemma assign_all_runs (l : loc) (rest : js unit) entries :
  ∀ s,
    (∃ ps, heap (st_store s) !! l = Some (OPlain ps)) →
    ∃ s', assign_all (VObject l) entries rest s = rest s'
      ∧ window (st_store s') = window (st_store s)
      ∧ st_trace s' = st_trace s.
Proof.
  induction entries as [|[key strs] entries IH]; intros s [ps Hl]; simpl.
  - by exists s.
  - unfold mbind, js_bind at 1. unfold assign, mbind, js_bind, new_array, set_prop. simpl.
    rewrite (lookup_app_l_Some _ _ _ _ Hl).
    destruct (decide (key = "__proto__")) as [_|_].
    + edestruct IH as (s' & Hrun & Hw & Ht); [|exists s'; split; [exact Hrun|]; by split].
      simpl. exists ps. by apply lookup_app_l_Some.
    + edestruct IH as (s' & Hrun & Hw & Ht); [|exists s'; split; [exact Hrun|]; by split].
      simpl. eexists. apply list_lookup_insert_eq.
      rewrite length_app. apply lookup_lt_Some in Hl. lia.
Qed.

Lemma page_runs (host : runtime) (entries : list (string * list string)) (s : state) :
  ∃ s', page host entries s = handoff host (VObject (length (heap (st_store s)))) s'
    ∧ window (st_store s') = window (st_store s)
    ∧ st_trace s' = st_trace s.
Proof.
  unfold page, mbind, js_bind, new_object. simpl.
  set (l := length (heap (st_store s))).
  set (s0 := State (Store (heap (st_store s) ++ [OPlain []]) (window (st_store s)))
                   (st_trace s)).
  destruct (assign_all_runs l (handoff host (VObject l)) entries s0)
    as (s' & Hrun & Hw & Ht); [|by exists s'].
  exists []. simpl. subst l. rewrite lookup_app_r by lia. by rewrite Nat.sub_diag.
Qed.

(** X1: a page never fails while it builds its table, whatever its entries
    (none, the same crate twice, [__proto__], array indices): it ends as
    its dispatch does.  It completes when the registration global is falsy;
    it ends in the TypeError of calling what is no function when the global
    is truthy and not callable; and when the global is a function the page
    calls it once, on the new table, with the globals untouched, and ends
    exactly as that call does: normally if it returns, with what it throws
    if it throws, in the store it leaves. *)
Theorem page_fails_only_in_dispatch (host : runtime)
    (entries : list (string * list string)) (s : state) :
  let c := global (st_store s) register_implementors in
  let r := page host entries s in
  let T := VObject (length (heap (st_store s))) in
  outcome r ≠ Some Unsupported
  ∧ (ToBoolean c = false → outcome r = None)
  ∧ (ToBoolean c = true → IsCallable c = false → outcome r = Some TypeError)
  ∧ (∀ f, c = VFunction f →
       ∃ σ, calls_of (since s r) = [(f, VWindow, [T], σ)]
            ∧ window σ = window (st_store s)
            ∧ outcome r = host_outcome (host f VWindow [T] σ)
            ∧ st_store (final r) = host_store (host f VWindow [T] σ)).
Proof.
  cbv zeta. destruct (page_runs host entries s) as (s' & Hrun & Hw & Ht).
  rewrite Hrun, (since_same_trace s s' _ Ht),
    <- (global_same_window (st_store s) (st_store s') register_implementors Hw).
  destruct (dispatch_cases (global (st_store s') register_implementors))
    as [Hc | [[f Hc] | [Htr Hc]]].
  - rewrite (handoff_falsy host _ s' Hc). simpl.
    split; [done|]. split; [done|]. split; [congruence|].
    intros f Hf. rewrite Hf in Hc. discriminate Hc.
  - rewrite (outcome_handoff_function host _ s' f Hc),
      (since_handoff_function host _ s' f Hc),
      (store_handoff_function host _ s' f Hc), Hc. simpl.
    split; [by destruct (host f VWindow _ (st_store s'))|].
    split; [done|]. split; [done|].
    intros f' Hf. injection Hf as <-. by exists (st_store s').
  - rewrite (handoff_not_callable host _ s' Htr Hc). simpl.
    split; [done|]. split; [congruence|]. split; [done|].
    intros f Hf. rewrite Hf in Hc. discriminate Hc.
Qed.

(** A page on a viewer that throws ends with what the viewer threw. *)
Example page_throwing_viewer :
  outcome (trait_Error_js faulty_viewer ready_page) = Some (Thrown (VString "boom")).
Proof. vm_compute. done. Qed.

(** X2: a page makes no global of its own.  The table is a new object, at
    an address nothing on the heap had; when the registration global is
    falsy the globals after the run are those before it with the pending
    slot set to that object, and when it is a function the one call of the
    run hands over that object in a store whose globals are those before
    the run. *)
Theorem page_window_frame (host : runtime) (entries : list (string * list string))
    (s : state) :
  let c := global (st_store s) register_implementors in
  let r := page host entries s in
  let T := VObject (length (heap (st_store s))) in
  heap (st_store s) !! length (heap (st_store s)) = None
  ∧ (ToBoolean c = false →
       window (st_store (final r)) = <[pending_implementors := T]> (window (st_store s))
       ∧ since s r = [EGet register_implementors; ESet pending_implementors T])
  ∧ (∀ f, c = VFunction f →
       ∃ σ, calls_of (since s r) = [(f, VWindow, [T], σ)]
            ∧ window σ = window (st_store s)
            ∧ writes_of (since s r) = []).
Proof.
  cbv zeta. split; [by apply lookup_ge_None_2|].
  destruct (page_runs host entries s) as (s' & Hrun & Hw & Ht).
  rewrite Hrun, (since_same_trace s s' _ Ht),
    <- (global_same_window (st_store s) (st_store s') register_implementors Hw).
  split.
  - intros Hc. rewrite (since_handoff_falsy host _ s' Hc), (handoff_falsy host _ s' Hc).
    simpl. by rewrite Hw.
  - intros f Hc. rewrite (since_handoff_function host _ s' f Hc). simpl.
    by exists (st_store s').
Qed.

(** ** The heap a page leaves *)

Lemma table_props_keys (l : loc) entries : (table_props l entries).*1 = entries.*1.
Proof.
  unfold table_props. apply list_eq. intros i.
  rewrite !list_lookup_fmap, list_lookup_imap. by destruct (entries !! i).
Qed.

Lemma table_props_snoc (l : loc) entries key strs :
  table_props l (entries ++ [(key, strs)])
  = table_props l entries ++ [(key, VObject (S l + length entries))].
Proof. unfold table_props. rewrite imap_app. simpl. by rewrite Nat.add_0_r. Qed.

(** One assignment, of a key not yet there, on a heap of that shape. *)
Lemma assign_heap (h0 : list object) (key : string) (strs : list string) (s : state) done :
  heap (st_store s)
    = h0 ++ OPlain (table_props (length h0) done) :: table_arrays done →
  ordinary_key key = true →
  key ∉ done.*1 →
  ∃ s', assign (VObject (length h0)) key strs s = Normal () s'
    ∧ heap (st_store s')
      = h0 ++ OPlain (table_props (length h0) (done ++ [(key, strs)]))
              :: table_arrays (done ++ [(key, strs)])
    ∧ window (st_store s') = window (st_store s)
    ∧ st_trace s' = st_trace s.
Proof.
  intros Hh Hord Hkey. unfold assign, mbind, js_bind, new_array. cbv beta iota zeta.
  rewrite Hh.
  assert (length (h0 ++ OPlain (table_props (length h0) done) :: table_arrays done)
          = S (length h0 + length done)) as Hlen.
  { rewrite length_app. simpl. unfold table_arrays. rewrite length_fmap. lia. }
  rewrite Hlen, <- app_assoc. simpl app.
  erewrite (set_prop_ordinary (length h0) key _ _ (table_props (length h0) done) Hord)
    by (simpl; rewrite lookup_app_r by lia; by rewrite Nat.sub_diag).
  eexists. split; [reflexivity|]. simpl. split; [|done].
  rewrite <- (Nat.add_0_r (length h0)) at 1. rewrite insert_app_r. simpl.
  rewrite alist_set_fresh by (by rewrite table_props_keys).
  rewrite table_props_snoc. unfold table_arrays. by rewrite fmap_app.
Qed.

Lemma assign_all_heap (h0 : list object) (rest : js unit) entries :
  ∀ done s,
    heap (st_store s)
      = h0 ++ OPlain (table_props (length h0) done) :: table_arrays done →
    NoDup (done.*1 ++ entries.*1) →
    ordinary_keys entries →
    ∃ s', assign_all (VObject (length h0)) entries rest s = rest s'
      ∧ heap (st_store s')
        = h0 ++ OPlain (table_props (length h0) (done ++ entries))
                :: table_arrays (done ++ entries)
      ∧ window (st_store s') = window (st_store s)
      ∧ st_trace s' = st_trace s.
Proof.
  induction entries as [|[key strs] entries IH]; intros done s Hh Hnd Hord; simpl.
  - exists s. by rewrite app_nil_r.
  - assert (key ∉ done.*1) as Hkey.
    { apply NoDup_app in Hnd as (_ & Hdisj & _).
      intros Hin. apply (Hdisj key Hin). apply list_elem_of_here. }
    apply Forall_cons in Hord as [Hord1 Hord].
    destruct (assign_heap h0 key strs s done Hh Hord1 Hkey)
      as (s1 & Hs1 & Hh1 & Hw1 & Ht1).
    destruct (IH (done ++ [(key, strs)]) s1 Hh1) as (s' & Hs' & Hh' & Hw' & Ht');
      [|exact Hord|].
    { rewrite fmap_app. simpl. by rewrite <- app_assoc. }
    exists s'. unfold mbind, js_bind at 1. rewrite Hs1.
    split; [exact Hs'|]. rewrite <- app_assoc in Hh'. split; [exact Hh'|].
    split; congruence.
Qed.

Lemma page_heap (host : runtime) (entries : list (string * list string)) (s : state) :
  NoDup entries.*1 →
  ordinary_keys entries →
  let l := length (heap (st_store s)) in
  ∃ s', page host entries s = handoff host (VObject l) s'
    ∧ heap (st_store s')
      = heap (st_store s) ++ OPlain (table_props l entries) :: table_arrays entries
    ∧ window (st_store s') = window (st_store s)
    ∧ st_trace s' = st_trace s.
Proof.
  intros Hnd Hord l. unfold page, mbind, js_bind, new_object. simpl. fold l.
  set (s0 := State (Store (heap (st_store s) ++ [OPlain []]) (window (st_store s)))
                   (st_trace s)).
  destruct (assign_all_heap (heap (st_store s)) (handoff host (VObject l)) entries [] s0)
    as (s' & Hrun & Hh & Hw & Ht); [done|done|done|by exists s'].
Qed.

(** A heap of that shape holds the built table. *)
Lemma shape_built (h0 : list object) entries :
  built (h0 ++ OPlain (table_props (length h0) entries) :: table_arrays entries)
        (length h0) entries.
Proof.
  exists (table_props (length h0) entries). split.
  - rewrite lookup_app_r by lia. by rewrite Nat.sub_diag.
  - apply Forall2_same_length_lookup. split.
    + unfold table_props. by rewrite length_imap.
    + intros i p e Hp He. unfold table_props in Hp.
      rewrite list_lookup_imap, He in Hp. simpl in Hp. injection Hp as <-.
      split; [done|]. exists (S (length h0) + i). split; [done|]. split; [lia|].
      rewrite lookup_app_r by lia.
      replace (S (length h0) + i - length h0) with (S i) by lia. simpl.
      unfold table_arrays. by rewrite list_lookup_fmap, He.
Qed.

(** What is built stays built when the heap grows at its end. *)
Lemma built_app (h h' : list object) (l : loc) entries :
  built h l entries → built (h ++ h') l entries.
Proof.
  intros (ps & Hl & Hall). exists ps. split; [by apply lookup_app_l_Some|].
  eapply Forall2_impl; [exact Hall|].
  intros p e [Hk (la & Hv & Hne & Ha)]. split; [done|]. exists la.
  split; [done|]. split; [done|]. by apply lookup_app_l_Some.
Qed.

(** X3: the heap a page of distinct crates, none of them [__proto__] or an
    array index, hands to its dispatch is the
    heap it found, followed by the table object and then one array per
    crate, in the order of the script.  So the page changes no object that
    was there, allocates one object more than it has crates, and gives
    every crate an array of its own, even when two crates list the same
    strings. *)
Theorem page_allocates (host : runtime) (entries : list (string * list string))
    (s : state) :
  NoDup entries.*1 →
  ordinary_keys entries →
  let l := length (heap (st_store s)) in
  ∃ s',
    page host entries s = handoff host (VObject l) s'
    ∧ heap (st_store s')
      = heap (st_store s) ++ OPlain (table_props l entries) :: table_arrays entries
    ∧ (∀ i o, heap (st_store s) !! i = Some o → heap (st_store s') !! i = Some o)
    ∧ length (heap (st_store s')) = l + S (length entries)
    ∧ NoDup (table_props l entries).*2
    ∧ (∀ p, p ∈ table_props l entries → ∃ la, p.2 = VObject la ∧ l < la).
Proof.
  intros Hnd Hord l.
  destruct (page_heap host entries s Hnd Hord) as (s' & Hrun & Hh & _).
  exists s'. split; [exact Hrun|]. split; [exact Hh|]. split; [|split; [|split]].
  - intros i o Hi. rewrite Hh. by apply lookup_app_l_Some.
  - rewrite Hh, length_app. simpl. unfold table_arrays. by rewrite length_fmap.
  - apply NoDup_alt. intros i j v Hi Hj. unfold table_props in Hi, Hj.
    rewrite list_lookup_fmap, list_lookup_imap in Hi, Hj.
    destruct (entries !! i); [|done]. destruct (entries !! j); [|done].
    simpl in Hi, Hj. injection Hi as <-. injection Hj as Hij. lia.
  - intros p Hp. apply list_elem_of_lookup in Hp as [i Hi]. unfold table_props in Hi.
    rewrite list_lookup_imap in Hi. destruct (entries !! i); [|done].
    simpl in Hi. injection Hi as <-. exists (S l + i). split; [done | lia].
Qed.

Lemma page_allocates_witness :
  NoDup trait_BitXor_table.*1
  ∧ ordinary_keys trait_BitXor_table
  ∧ ∃ s', trait_BitXor_js viewer early_page = handoff viewer (VObject 4) s'
          ∧ length (heap (st_store s')) = 8.
Proof.
  split; [exact trait_BitXor_keys|]. split; [exact trait_BitXor_ordinary|].
  destruct (page_allocates viewer trait_BitXor_table early_page trait_BitXor_keys
              trait_BitXor_ordinary)
    as (s' & Hrun & _ & _ & Hlen & _).
  exists s'. split; [exact Hrun | exact Hlen].
Defined.

(** ** One page after another *)

(** X4: two pages of distinct crates, none of them [__proto__] or an array
    index, loaded one after the other, before the viewer: both complete, each writes the pending slot once, and the slot
    ends up on the table of the second page, which reads back as the
    entries of the second script.  The table of the first page is another
    object, still on the heap and still reading back as the entries of the
    first script; no entry has moved from one table to the other. *)
Theorem pages_in_sequence (host : runtime) (e1 e2 : list (string * list string))
    (s : state) :
  ToBoolean (global (st_store s) register_implementors) = false →
  NoDup e1.*1 → ordinary_keys e1 →
  NoDup e2.*1 → ordinary_keys e2 →
  let r := (page host e1;; page host e2) s in
  let T1 := VObject (length (heap (st_store s))) in
  let T2 := VObject (length (heap (st_store s)) + S (length e1)) in
  outcome r = None
  ∧ since s r = [EGet register_implementors; ESet pending_implementors T1;
                 EGet register_implementors; ESet pending_implementors T2]
  ∧ global (st_store (final r)) pending_implementors = T2
  ∧ read_table (st_store (final r)) T2 = Some e2
  ∧ read_table (st_store (final r)) T1 = Some e1.
Proof.
  intros Hc Hn1 Ho1 Hn2 Ho2. cbv zeta. unfold mbind, js_bind.
  destruct (page_heap host e1 s Hn1 Ho1) as (s1 & Hrun1 & Hh1 & Hw1 & Ht1).
  cbv zeta in Hrun1, Hh1. rewrite Hrun1.
  rewrite <- (global_same_window (st_store s) (st_store s1) register_implementors Hw1)
    in Hc.
  rewrite (handoff_falsy host _ s1 Hc).
  set (s1' := State _ _).
  assert (length (heap (st_store s1')) = length (heap (st_store s)) + S (length e1))
    as Hlen1.
  { subst s1'. simpl. rewrite Hh1, length_app. simpl.
    unfold table_arrays. by rewrite length_fmap. }
  destruct (page_heap host e2 s1' Hn2 Ho2) as (s2 & Hrun2 & Hh2 & Hw2 & Ht2).
  cbv zeta in Hrun2, Hh2. rewrite Hlen1 in Hrun2. rewrite Hrun2.
  assert (ToBoolean (global (st_store s2) register_implementors) = false) as Hc2.
  { rewrite (global_same_window (st_store s1') (st_store s2) _ Hw2). subst s1'. simpl.
    rewrite global_insert_ne by apply globals_differ.
    by destruct s1 as [[h w] t]. }
  rewrite (handoff_falsy host _ s2 Hc2). simpl.
  rewrite global_insert_eq.
  split; [done|]. split; [|split; [done|split]].
  - apply since_app. simpl. rewrite Ht2. subst s1'. simpl.
    by rewrite Ht1, <- !app_assoc.
  - apply built_read_table. simpl. rewrite Hh2. rewrite <- Hlen1. apply shape_built.
  - apply built_read_table. simpl. rewrite Hh2. apply built_app.
    subst s1'. simpl. rewrite Hh1. apply shape_built.
Qed.

Lemma pages_in_sequence_witness :
  let r := (trait_Error_js viewer;; trait_BitXor_js viewer) early_page in
  global (st_store (final r)) pending_implementors = VObject 11
  ∧ read_table (st_store (final r)) (VObject 11) = Some trait_BitXor_table
  ∧ read_table (st_store (final r)) (VObject 4) = Some trait_Error_table.
Proof.
  cbv zeta.
  pose proof (pages_in_sequence viewer trait_Error_table trait_BitXor_table early_page
                eq_refl trait_Error_keys trait_Error_ordinary
                trait_BitXor_keys trait_BitXor_ordinary) as H.
  cbv zeta in H. destruct H as (_ & _ & Hp & H2 & H1).
  split; [exact Hp|]. split; [exact H2 | exact H1].
Defined.

(** X5: two runs of the dispatch in a row on a loaded page.  When the
    registration function returns from the first run and the global still
    holds a function afterwards, both tables are delivered, in order, each
    to the function the global held at its turn; the second call starts in
    the store the first one left, nothing is written by either run, and the
    pair of runs ends as the second call does. *)
Theorem handoff_twice_delivers (host : runtime) (T1 T2 : value) (s : state)
    (f g : fid) (v : value) (σ1 : store) :
  global (st_store s) register_implementors = VFunction f →
  host f VWindow [T1] (st_store s) = HReturn v σ1 →
  global σ1 register_implementors = VFunction g →
  let r := (handoff host T1;; handoff host T2) s in
  calls_of (since s r) = [(f, VWindow, [T1], st_store s); (g, VWindow, [T2], σ1)]
  ∧ writes_of (since s r) = []
  ∧ st_store (final r) = host_store (host g VWindow [T2] σ1)
  ∧ outcome r = match host g VWindow [T2] σ1 with
                | HReturn _ _ => None
                | HThrow w _ => Some (Thrown w)
                end.
Proof.
  intros Hf Hret Hg. cbv zeta. unfold mbind, js_bind.
  rewrite (handoff_function host T1 s f Hf). cbv zeta. rewrite Hret.
  set (s1 := State σ1 _).
  rewrite (handoff_function host T2 s1 g Hg). cbv zeta. subst s1. simpl.
  destruct (host g VWindow [T2] σ1) as [w σ2|w σ2]; simpl;
    (split; [|split; [|done]]);
    erewrite since_app by (simpl; rewrite <- app_assoc; reflexivity); done.
Qed.

Lemma handoff_twice_delivers_witness :
  let r := (handoff viewer (VObject 0);; handoff viewer (VObject 2)) ready_page in
  call_shape <$> calls_of (since ready_page r)
  = [(0, VWindow, [VObject 0]); (0, VWindow, [VObject 2])]
  ∧ global (st_store (final r)) "registered" = VObject 2.
Proof.
  cbv zeta.
  pose proof (handoff_twice_delivers viewer (VObject 0) (VObject 2) ready_page 0 0
                VUndefined
                (Store two_tables
                   (<["registered" := VObject 0]> {[register_implementors := VFunction 0]}))
                eq_refl eq_refl eq_refl) as H.
  cbv zeta in H. destruct H as (Hc & _ & Hs & _).
  split; [by rewrite Hc | by rewrite Hs].
Defined.
